(** * arkhamdb.py: the card-table builder [read_cards_json]

    A shallow embedding of [src/arkhamdb.py].  The script loads a JSON
    document, walks over it, builds one table row per card and writes the
    table to a parquet file.  The Python values that [json.loads] can
    return, the builtins the script calls on them ([str], [str.replace],
    [str.strip], [len], subscription, iteration, [in]) and the two pandas
    operations ([df.loc[label] = row], [df.to_parquet(..., index=False)])
    are modelled below; every Python exception is an explicit error
    result. *)

From Stdlib Require Import List NArith ZArith Bool String Ascii Lia DecimalString.
Import ListNotations.

Set Warnings "-register-all".

(** ** Python strings *)

(** A Python [str] is a sequence of Unicode code points. *)
Definition char := N.
Definition pystr := list char.

(** The code points of an ASCII literal of the source. *)
Definition u (s : string) : pystr := map N_of_ascii (list_ascii_of_string s).
Arguments u s%_string.

Fixpoint pystr_eqb (a b : pystr) : bool :=
  match a, b with
  | [], [] => true
  | x :: a', y :: b' => N.eqb x y && pystr_eqb a' b'
  | _, _ => false
  end.

(** [s.startswith(p)] *)
Fixpoint startswith (p s : pystr) : bool :=
  match p, s with
  | [], _ => true
  | x :: p', y :: s' => N.eqb x y && startswith p' s'
  | _ :: _, [] => false
  end.

(** [p in s] for two strings: [p] occurs in [s] as a contiguous run. *)
Fixpoint contains (p s : pystr) : bool :=
  startswith p s ||
  match s with
  | [] => false
  | _ :: s' => contains p s'
  end.

(** [sep.join(parts)] *)
Fixpoint join (sep : pystr) (parts : list pystr) : pystr :=
  match parts with
  | [] => []
  | [p] => p
  | p :: rest => p ++ sep ++ join sep rest
  end.

(** [s.replace(old, new)]: the occurrences of [old] are found from left to
    right, each search resuming after the previous occurrence; the text
    produced by a replacement is not searched again.  [skip] counts the
    characters of the occurrence being replaced that are still to be
    dropped. *)
Fixpoint replace_from (old new : pystr) (skip : nat) (s : pystr) : pystr :=
  match s with
  | [] => []
  | c :: s' =>
      match skip with
      | S n => replace_from old new n s'
      | O =>
          if startswith old s
          then new ++ replace_from old new (List.length old - 1) s'
          else c :: replace_from old new 0 s'
      end
  end.

Definition replace (s old new : pystr) : pystr :=
  match old with
  | [] => new ++ flat_map (fun c => c :: new) s
  | _ :: _ => replace_from old new 0 s
  end.

(** [c.isspace()] for a code point: the characters [str.strip()] removes. *)
Definition isspace (c : char) : bool :=
  ((9 <=? c) && (c <=? 13) || (28 <=? c) && (c <=? 32)
   || (c =? 133) || (c =? 160) || (c =? 5760)
   || (8192 <=? c) && (c <=? 8202)
   || (c =? 8232) || (c =? 8233) || (c =? 8239) || (c =? 8287)
   || (c =? 12288))%N.

Fixpoint lstrip (s : pystr) : pystr :=
  match s with
  | [] => []
  | c :: s' => if isspace c then lstrip s' else s
  end.

Definition rstrip (s : pystr) : pystr := rev (lstrip (rev s)).

(** [s.strip()] *)
Definition strip (s : pystr) : pystr := rstrip (lstrip s).

(** ** Exceptions *)

Inductive exn : Set :=
| FileNotFoundError
| JSONDecodeError
| TypeError
| KeyError
| IndexError
| ValueError.

Definition result (A : Type) : Type := (exn + A)%type.

Definition ret {A} (a : A) : result A := inr a.
Definition raise {A} (e : exn) : result A := inl e.

Definition bind {A B} (c : result A) (k : A -> result B) : result B :=
  match c with
  | inl e => inl e
  | inr a => k a
  end.

Notation "x <- c ;; k" := (bind c (fun x => k))
  (at level 61, c at next level, right associativity).

(** ** Python values *)

(** The values [json.loads] returns.  A [dict] keeps its keys in insertion
    order, so it is an association list; its keys are strings.  A float
    is carried as its [repr] text, the only thing the script observes of
    it. *)
Inductive pyval : Type :=
| PNone
| PBool (b : bool)
| PInt (z : Z)
| PFloat (r : pystr)
| PStr (s : pystr)
| PList (l : list pyval)
| PDict (d : list (pystr * pyval)).

(** [str(z)] for an [int]. *)
Definition int_str (z : Z) : pystr :=
  u (NilZero.string_of_int (Z.to_int z)).

Definition hex_digit (n : N) : char :=
  (if n <? 10 then 48 + n else 87 + n)%N.

(** [width] lowercase hexadecimal digits of [n], most significant first. *)
Fixpoint hex (width : nat) (n : N) : pystr :=
  match width with
  | O => []
  | S w => hex w (n / 16) ++ [hex_digit (n mod 16)]
  end.

Section Runtime.

(** [c.isprintable()] for a code point outside ASCII: a table of the
    Unicode character database, which [repr] consults. *)
Variable isprintable : char -> bool.

(** One character of [repr(s)], inside the quotes [quote]. *)
Definition repr_char (quote c : char) : pystr :=
  (if (c =? quote) || (c =? 92) then [92; c]
   else if c =? 9 then u "\t"
   else if c =? 10 then u "\n"
   else if c =? 13 then u "\r"
   else if (c <? 32) || (c =? 127) then u "\x" ++ hex 2 c
   else if c <? 127 then [c]
   else if isprintable c then [c]
   else if c <=? 255 then u "\x" ++ hex 2 c
   else if c <=? 65535 then u "\u" ++ hex 4 c
   else u "\U" ++ hex 8 c)%N.

(** [repr(s)] for a [str]: single quotes, unless the string holds a single
    quote and no double quote. *)
Definition str_repr (s : pystr) : pystr :=
  let quote : char :=
    if existsb (N.eqb 39) s && negb (existsb (N.eqb 34) s) then 34%N else 39%N in
  quote :: flat_map (repr_char quote) s ++ [quote].

(** [repr(v)] *)
Fixpoint py_repr (v : pyval) : pystr :=
  match v with
  | PNone => u "None"
  | PBool true => u "True"
  | PBool false => u "False"
  | PInt z => int_str z
  | PFloat r => r
  | PStr s => str_repr s
  | PList l => u "[" ++ join (u ", ") (map py_repr l) ++ u "]"
  | PDict d =>
      u "{" ++
      join (u ", ")
        (map (fun kv => match kv with
                        | (k, x) => str_repr k ++ u ": " ++ py_repr x
                        end) d)
      ++ u "}"
  end.

(** [str(v)]: a string is its own text, every other value prints as its
    [repr]. *)
Definition py_str (v : pyval) : pystr :=
  match v with
  | PStr s => s
  | _ => py_repr v
  end.

End Runtime.

(** ** Builtin operations on values *)

(** [len(v)] *)
Definition py_len (v : pyval) : result nat :=
  match v with
  | PStr s => ret (List.length s)
  | PList l => ret (List.length l)
  | PDict d => ret (List.length d)
  | _ => raise TypeError
  end.

(** [d[k]] on the association list of a [dict]. *)
Fixpoint dict_get (d : list (pystr * pyval)) (k : pystr) : option pyval :=
  match d with
  | [] => None
  | (k', x) :: d' => if pystr_eqb k' k then Some x else dict_get d' k
  end.

(** The position a sequence of length [n] gives to the index [z]: a
    negative index counts from the end. *)
Definition seq_index (z : Z) (n : nat) : option nat :=
  let z' := (if z <? 0 then z + Z.of_nat n else z)%Z in
  if ((0 <=? z') && (z' <? Z.of_nat n))%Z then Some (Z.to_nat z') else None.

(** The integer an index object stands for ([bool] is an [int]). *)
Definition as_index (key : pyval) : option Z :=
  match key with
  | PInt z => Some z
  | PBool b => Some (if b then 1 else 0)%Z
  | _ => None
  end.

(** [v[key]] *)
Definition getitem (v key : pyval) : result pyval :=
  match v with
  | PDict d =>
      match key with
      | PStr k =>
          match dict_get d k with
          | Some x => ret x
          | None => raise KeyError
          end
      | PList _ | PDict _ => raise TypeError
      | _ => raise KeyError
      end
  | PList l =>
      match as_index key with
      | Some z =>
          match seq_index z (List.length l) with
          | Some i =>
              match nth_error l i with
              | Some x => ret x
              | None => raise IndexError
              end
          | None => raise IndexError
          end
      | None => raise TypeError
      end
  | PStr s =>
      match as_index key with
      | Some z =>
          match seq_index z (List.length s) with
          | Some i =>
              match nth_error s i with
              | Some c => ret (PStr [c])
              | None => raise IndexError
              end
          | None => raise IndexError
          end
      | None => raise TypeError
      end
  | _ => raise TypeError
  end.

(** The items a [for] loop over [v] visits: the keys of a [dict], the
    elements of a [list], the characters of a [str]. *)
Definition py_iter (v : pyval) : result (list pyval) :=
  match v with
  | PDict d => ret (map (fun kv => PStr (fst kv)) d)
  | PList l => ret l
  | PStr s => ret (map (fun c => PStr [c]) s)
  | _ => raise TypeError
  end.

(** [x == s] for a string [s]: only an equal string is equal to it. *)
Definition eq_str (x : pyval) (s : pystr) : bool :=
  match x with
  | PStr t => pystr_eqb t s
  | _ => false
  end.

(** [x in names] for a list of strings. *)
Definition in_list (x : pyval) (names : list pystr) : bool :=
  existsb (eq_str x) names.

(** [a + x] for a string [a]. *)
Definition str_add (a : pystr) (x : pyval) : result pystr :=
  match x with
  | PStr s => ret (a ++ s)
  | _ => raise TypeError
  end.

(** A [for] loop whose body updates the loop state [s] or raises. *)
Fixpoint for_each {S A : Type} (body : S -> A -> result S) (xs : list A) (s : S)
  : result S :=
  match xs with
  | [] => ret s
  | x :: xs' => s' <- body s x ;; for_each body xs' s'
  end.

(** [tqdm(xs)] yields the items of [xs]; the progress bar is display only. *)
Definition tqdm {A : Type} (xs : list A) : list A := xs.

(** ** pandas *)

(** A frame: its column names and its rows, each under its index label. *)
Record DataFrame : Type := mkDataFrame {
  columns : list pystr;
  rows : list (Z * list pyval)
}.

(** [len(df)] *)
Definition df_len (df : DataFrame) : nat := List.length (rows df).

Fixpoint set_row (label : Z) (cells : list pyval) (rs : list (Z * list pyval))
  : list (Z * list pyval) :=
  match rs with
  | [] => [(label, cells)]
  | (l, old) :: rs' =>
      if (l =? label)%Z then (l, cells) :: rs'
      else (l, old) :: set_row label cells rs'
  end.

(** [df.loc[label] = cells]: the row under [label] is overwritten, and a
    label the index does not hold yet is appended with its row; the number
    of cells must be the number of columns.  The cells are kept as given
    here; [loc_setitem_typed] below stores them in the types of the
    columns. *)
Definition loc_setitem (df : DataFrame) (label : Z) (cells : list pyval)
  : result DataFrame :=
  if Nat.eqb (List.length cells) (List.length (columns df))
  then ret (mkDataFrame (columns df) (set_row label cells (rows df)))
  else raise ValueError.

(** The content of a parquet file: named columns and rows of cells. *)
Record parquet : Type := mkParquet {
  pq_columns : list pystr;
  pq_rows : list (list pyval)
}.

(** [df.to_parquet(path, index=False)]: the index labels are not stored.
    This is the table an engine that accepts the frame writes;
    [read_cards_json_typed] below has the engine that can refuse it. *)
Definition to_parquet (df : DataFrame) : parquet :=
  mkParquet (columns df) (map snd (rows df)).

(** The two files the script touches: [data_extract/all_cards.json], which
    it reads, and [arkham_horror_card_data.parquet], which it writes. *)
Record files : Type := mkFiles {
  all_cards_json : option pystr;
  arkham_horror_card_data : option parquet
}.

(** ** The script *)

(** The keys the text of a card leaves out (lines 22-23). *)
Definition EXCLUDED : list pystr :=
  [u "deck_requirements"; u "deck_options"; u "double_sided"; u "octgn_id";
   u "url"; u "imagesrc"; u "backimagesrc"; u "duplicated_by";
   u "alternated_by"; u "illustrator"; u "errata_date"; u "restrictions";
   u "spoiler"].

(** The literal [card_text] starts from (line 20). *)
Definition PREFIX : pystr := u "Game Name : Arkham Horror".

(** [value.replace('<b>','').replace('</b>','').strip()] (line 25) *)
Definition clean (value : pystr) : pystr :=
  strip (replace (replace value (u "<b>") []) (u "</b>") []).

Section Script.

Variable isprintable : char -> bool.

(** [json.loads]: the value a text decodes to, or [None] where the text is
    not a JSON document. *)
Variable json_loads : pystr -> option pyval.

(** The body of [for key in card] (lines 22-26). *)
Definition card_step (card : pyval) (card_text : pystr) (key : pyval)
  : result pystr :=
  if negb (in_list key EXCLUDED) then
    item <- getitem card key ;;
    let value := py_str isprintable item in
    let value := clean value in
    front <- str_add (u ", ") key ;;
    ret (card_text ++ ((front ++ u " : ") ++ value))
  else ret card_text.

(** Lines 20-26: the text of one card. *)
Definition card_text (card : pyval) : result pystr :=
  keys <- py_iter card ;;
  for_each (card_step card) keys PREFIX.

(** Lines 20-27, right-hand side: the cells of the row of one card. *)
Definition card_row (card : pyval) : result (list pyval) :=
  text <- card_text card ;;
  pack_name <- getitem card (PStr (u "pack_name")) ;;
  code <- getitem card (PStr (u "code")) ;;
  ret [PStr (u "Arkham Horror"); pack_name; code; PStr text].

(** The body of [for i in tqdm(range(len(card_data)))] (lines 18-27). *)
Definition loop_body (card_data : pyval) (df : DataFrame) (i : nat)
  : result DataFrame :=
  card <- getitem card_data (PInt (Z.of_nat i)) ;;
  cells <- card_row card ;;
  loc_setitem df (Z.of_nat (df_len df)) cells.

(** Lines 12 and 17-27: the frame built from the decoded document. *)
Definition build_table (card_data : pyval) : result DataFrame :=
  let df := mkDataFrame [u "game_name"; u "expansion"; u "id"; u "text"] [] in
  n <- py_len card_data ;;
  for_each (loop_body card_data) (tqdm (seq 0 n)) df.

(** Lines 14-15: [open] and [json.loads(file.read())]. *)
Definition load (fs : files) : result pyval :=
  match all_cards_json fs with
  | None => raise FileNotFoundError
  | Some content =>
      match json_loads content with
      | None => raise JSONDecodeError
      | Some card_data => ret card_data
      end
  end.

(** [read_cards_json()]: the outcome of the call and the files after it.
    The parquet file is written by the last statement only (line 29).
    The frame keeps the cells as given and the write goes through. *)
Definition read_cards_json (fs : files) : result unit * files :=
  match (card_data <- load fs ;; build_table card_data) with
  | inl e => (inl e, fs)
  | inr df => (ret tt, mkFiles (all_cards_json fs) (Some (to_parquet df)))
  end.

(** [get_card_image()]: [pass]. *)
Definition get_card_image (fs : files) : result unit * files := (ret tt, fs).

End Script.

(** ** Notions the statements use *)

(** [k] is one of the thirteen keys the text leaves out. *)
Definition excluded (k : pystr) : bool := in_list (PStr k) EXCLUDED.

(** A card the script can make a row of: an object that has the keys
    [pack_name] and [code]. *)
Definition valid_card (card : pyval) : bool :=
  match card with
  | PDict d =>
      match dict_get d (u "pack_name"), dict_get d (u "code") with
      | Some _, Some _ => true
      | _, _ => false
      end
  | _ => false
  end.

(** A decoded document on which the run goes through: an array of valid
    cards, and also the two empty containers that are not arrays, on which
    the loop has nothing to do. *)
Definition accepted_document (card_data : pyval) : bool :=
  match card_data with
  | PList cards => forallb valid_card cards
  | PDict [] => true
  | PStr [] => true
  | _ => false
  end.

(** The decoded document is an array. *)
Definition is_array (card_data : pyval) : bool :=
  match card_data with
  | PList _ => true
  | _ => false
  end.

(** The two markup tags line 25 removes. *)
Definition has_tag (s : pystr) : bool :=
  contains (u "<b>") s || contains (u "</b>") s.

(** The next character is neither [<] nor [>] (or there is none). *)
Definition not_angle (s : pystr) : bool :=
  match s with
  | [] => true
  | c :: _ => negb (c =? 60)%N && negb (c =? 62)%N
  end.

(** What follows a [<] departs from [b>] and from [/b>] at a character
    that is not [<] (or ends before them): no removal can turn it into the
    rest of a tag. *)
Definition blocked (s : pystr) : bool :=
  match s with
  | [] => true
  | d :: s1 =>
      (if d =? 60 then false
       else if d =? 98 then not_angle s1
       else if d =? 47 then
         match s1 with
         | [] => true
         | e :: s2 =>
             if e =? 60 then false
             else if e =? 98 then not_angle s2
             else true
         end
       else true)%N
  end.

(** Every [<] of [s] either begins one of [tags], or is followed by what
    can never become the rest of a tag. *)
Fixpoint markup_safe (tags : list pystr) (s : pystr) : bool :=
  match s with
  | [] => true
  | c :: s' =>
      (if (c =? 60)%N
       then existsb (fun tag => startswith tag s) tags || blocked s'
       else true)
      && markup_safe tags s'
  end.

(** No tag is nested in the pieces of another: every [<] of [s] begins a
    whole [<b>] or [</b>], or cannot begin a tag at all. *)
Definition no_nested_markup (s : pystr) : bool :=
  markup_safe [u "<b>"; u "</b>"] s.

(** The fragment line 26 appends for the key [k] holding [v]. *)
Definition fragment (isprintable : char -> bool) (k : pystr) (v : pyval) : pystr :=
  u ", " ++ k ++ u " : " ++ clean (py_str isprintable v).

(** What the key [k] of the record [d] adds to the text. *)
Definition fragment_of (isprintable : char -> bool) (d : list (pystr * pyval))
  (k : pystr) : pystr :=
  if excluded k then []
  else match dict_get d k with
       | Some v => fragment isprintable k v
       | None => []
       end.

(** The cells the script stores for a card it has the text [text] of. *)
Definition row_cells (pack_name code : pyval) (text : pystr) : list pyval :=
  [PStr (u "Arkham Horror"); pack_name; code; PStr text].

(** The header of the table. *)
Definition HEADER : list pystr :=
  [u "game_name"; u "expansion"; u "id"; u "text"].

(** ** Sample runtime data for the worked instances *)

(** The printable characters of Latin-1 beyond ASCII; no character above
    U+00FF is taken as printable. *)
Definition latin1_printable (c : char) : bool :=
  ((160 <? c) && (c <=? 255) && negb (c =? 173))%N.

(** A JSON string literal without escapes. *)
Definition quoted (s : string) : pystr := 34%N :: u s ++ [34%N].
Arguments quoted s%_string.

(** The card of the worked example of the specification and the text of
    the document that holds it. *)
Definition roland_banks : pyval :=
  PDict [(u "code", PStr (u "01001"));
         (u "pack_name", PStr (u "Core Set"));
         (u "name", PStr (u "Roland Banks"));
         (u "spoiler", PBool true)].

Definition roland_banks_json : pystr :=
  u "[{" ++ quoted "code" ++ u ":" ++ quoted "01001" ++ u ","
  ++ quoted "pack_name" ++ u ":" ++ quoted "Core Set" ++ u ","
  ++ quoted "name" ++ u ":" ++ quoted "Roland Banks" ++ u ","
  ++ quoted "spoiler" ++ u ":true}]".

(** A card whose name nests one tag in the pieces of another, and one whose
    columns and keys carry markup and blanks. *)
Definition nested_tag_card : pyval :=
  PDict [(u "code", PStr (u "01002"));
         (u "pack_name", PStr (u "Core Set"));
         (u "name", PStr (u "<<b>b>Daisy"))].

Definition marked_up_card : pyval :=
  PDict [(u "code", PStr (u " <b>01003</b> "));
         (u "pack_name", PStr (u " The <b>Dunwich</b> Legacy "));
         (u "<b>, x", PStr (u "  <b>Elder Sign</b>  "));
         (u "url", PStr (u "/card/01003"));
         (u "xp", PInt 2)].

(** A record with plain markup: whole tags, and a [<] that begins none. *)
Definition elder_sign : list (pystr * pyval) :=
  [(u "code", PStr (u "01004"));
   (u "name", PStr (u " <b>Elder Sign</b>"));
   (u "text", PStr (u "<i>Fast.</i> Spend 1 <b>clue</b> if 1 < 2</b>."));
   (u "url", PStr (u "<<b>b>"));
   (u "slots", PList [PStr (u "<b>Hand</b>"); PInt 2])].

(** The compact JSON text of a value whose strings need no escape. *)
Fixpoint json_text (v : pyval) : pystr :=
  match v with
  | PNone => u "null"
  | PBool true => u "true"
  | PBool false => u "false"
  | PInt z => int_str z
  | PFloat r => r
  | PStr s => 34%N :: s ++ [34%N]
  | PList l => u "[" ++ join (u ",") (map json_text l) ++ u "]"
  | PDict d =>
      u "{" ++
      join (u ",")
        (map (fun kv => match kv with
                        | (k, x) => (34%N :: k ++ [34%N]) ++ u ":" ++ json_text x
                        end) d)
      ++ u "}"
  end.

(** A decoder that knows the listed documents only: it maps the text of
    each to its value and rejects every other text. *)
Definition decoder_of (docs : list pyval) (text : pystr) : option pyval :=
  dict_get (map (fun v => (json_text v, v)) docs) text.

(** The documents the sample decoder knows. *)
Definition sample_documents : list pyval :=
  [PList [roland_banks];
   PList [];
   PDict [];
   PStr [];
   PInt 7;
   PList [PNone];
   PList [roland_banks; PList [PStr (u "url")]];
   PList [marked_up_card];
   PList [nested_tag_card];
   PList [roland_banks; marked_up_card]].

Definition sample_loads : pystr -> option pyval := decoder_of sample_documents.

(** The files before a first run over a document of two cards, and before
    a run over other documents, with an older table in place. *)
Definition two_cards : list pyval := [roland_banks; marked_up_card].

Definition two_cards_files : files :=
  mkFiles (Some (json_text (PList two_cards))) None.

Definition stale_table : parquet :=
  mkParquet HEADER [row_cells (PStr (u "Core Set")) (PStr (u "01000")) PREFIX].

Definition files_with (card_data : pyval) : files :=
  mkFiles (Some (json_text card_data)) (Some stale_table).

(** The cards the loop visits on an accepted document. *)
Definition elements (card_data : pyval) : list pyval :=
  match card_data with
  | PList cards => cards
  | _ => []
  end.

(** Values that are neither an object nor an array. *)
Definition is_scalar_or_string (v : pyval) : bool :=
  match v with
  | PList _ | PDict _ => false
  | _ => true
  end.

(** The labels [0 .. n-1] of a frame of [n] rows. *)
Definition range_labels (n : nat) : list Z := map Z.of_nat (seq 0 n).

(** A card without [pack_name], and further documents with their decoder. *)
Definition missing_pack_name : pyval :=
  PDict [(u "code", PStr (u "01005")); (u "name", PStr (u "Wendy Adams"))].

Definition more_documents : list pyval :=
  [PList ([roland_banks] ++ missing_pack_name :: [marked_up_card]);
   PList ([roland_banks] ++ PList [PInt 5] :: []);
   PDict [(u "cards", PList [roland_banks])]].

Definition more_loads : pystr -> option pyval := decoder_of more_documents.

(** ** The table as pandas and the parquet engine keep it *)

(** pandas gives every column of a frame one type and, when a row is
    added, stores the cells of the column again in the type the column
    then has (a column of ints that receives a float becomes a column of
    floats); the parquet engine can refuse a frame (a column that mixes
    strings and numbers, an integer beyond 64 bits, an empty struct).
    Neither rule is code of the script: the run below takes both as
    given, [cast] for the stored value of a cell that is not a string and
    [refuses] for the frames the engine raises on. *)

(** How a run ends: with an exception before line 29, the files being as
    they were; with an exception of the write of line 29, no table being
    stored; or with the table written. *)
Inductive outcome : Type :=
| Aborted (e : exn)
| WriteFailed
| Written (table : parquet).

(** The run got as far as the write of line 29. *)
Definition reached_write (o : outcome) : bool :=
  match o with
  | Aborted _ => false
  | _ => true
  end.

(** [stored] can be what a frame holds for the cell [raw]: a string is
    held as it is, any other value in the type of its column. *)
Definition kept (raw stored : pyval) : Prop :=
  match raw with
  | PStr _ => stored = raw
  | _ => True
  end.

(** An object whose [pack_name] and [code] are strings. *)
Definition text_card (card : pyval) : bool :=
  match card with
  | PDict d =>
      match dict_get d (u "pack_name"), dict_get d (u "code") with
      | Some (PStr _), Some (PStr _) => true
      | _, _ => false
      end
  | _ => false
  end.

Section Storage.

Variable isprintable : char -> bool.
Variable cast : list pyval -> pyval -> pyval.
Variable refuses : DataFrame -> bool.
Variable json_loads : pystr -> option pyval.

(** The values of column [j]. *)
Definition column (j : nat) (rs : list (Z * list pyval)) : list pyval :=
  map (fun r => nth j (snd r) PNone) rs.

(** The value a frame holds for the cell [x] of a column holding [col]. *)
Definition store (col : list pyval) (x : pyval) : pyval :=
  match x with
  | PStr _ => x
  | _ => cast col x
  end.

Definition retype_row (rs : list (Z * list pyval)) (cells : list pyval)
  : list pyval :=
  map (fun jx => store (column (fst jx) rs) (snd jx))
    (combine (seq 0 (List.length cells)) cells).

(** Every cell stored again in the type of its column. *)
Definition retype (rs : list (Z * list pyval)) : list (Z * list pyval) :=
  map (fun r => (fst r, retype_row rs (snd r))) rs.

(** [df.loc[label] = cells] with the column types settled after it. *)
Definition loc_setitem_typed (df : DataFrame) (label : Z) (cells : list pyval)
  : result DataFrame :=
  df' <- loc_setitem df label cells ;;
  ret (mkDataFrame (columns df') (retype (rows df'))).

(** Lines 18-27 on such a frame. *)
Definition loop_body_typed (card_data : pyval) (df : DataFrame) (i : nat)
  : result DataFrame :=
  card <- getitem card_data (PInt (Z.of_nat i)) ;;
  cells <- card_row isprintable card ;;
  loc_setitem_typed df (Z.of_nat (df_len df)) cells.

(** Lines 12 and 17-27 on such a frame. *)
Definition build_table_typed (card_data : pyval) : result DataFrame :=
  let df := mkDataFrame [u "game_name"; u "expansion"; u "id"; u "text"] [] in
  n <- py_len card_data ;;
  for_each (loop_body_typed card_data) (tqdm (seq 0 n)) df.

(** [read_cards_json()] with the storage layer as it is: the outcome of
    the call. *)
Definition read_cards_json_typed (fs : files) : outcome :=
  match (card_data <- load json_loads fs ;; build_table_typed card_data) with
  | inl e => Aborted e
  | inr df => if refuses df then WriteFailed else Written (to_parquet df)
  end.

End Storage.

(** Sample rules for the worked instances: an int of a column that holds a
    float is stored as a float (written as the small ints of the samples
    print), and the engine refuses a frame with a column that holds a
    string beside a value that is not one. *)
Definition is_float (v : pyval) : bool :=
  match v with
  | PFloat _ => true
  | _ => false
  end.

Definition is_str (v : pyval) : bool :=
  match v with
  | PStr _ => true
  | _ => false
  end.

Definition sample_cast (col : list pyval) (x : pyval) : pyval :=
  match x with
  | PInt z => if existsb is_float col then PFloat (int_str z ++ u ".0") else x
  | _ => x
  end.

Definition mixed_column (col : list pyval) : bool :=
  existsb is_str col && negb (forallb is_str col).

Definition sample_refuses (df : DataFrame) : bool :=
  existsb (fun j => mixed_column (column j (rows df)))
    (seq 0 (List.length (columns df))).

(** A card whose [pack_name] is a number, and two cards whose [xp]-like
    columns are an int and a float. *)
Definition numbered_pack : pyval :=
  PDict [(u "code", PStr (u "01007")); (u "pack_name", PInt 5)].

Definition int_pack : pyval :=
  PDict [(u "pack_name", PInt 1); (u "code", PStr (u "01008"))].

Definition float_pack : pyval :=
  PDict [(u "pack_name", PFloat (u "0.5")); (u "code", PStr (u "01009"))].

(** * Properties *)

(** ** Strings and loops *)

Lemma pystr_eqb_eq (a b : pystr) : pystr_eqb a b = true <-> a = b.
Proof.
  revert b; induction a as [|x a IH]; intros [|y b]; simpl; split;
    try discriminate; try reflexivity.
  - intros H. apply andb_true_iff in H as [Hx Hab].
    apply N.eqb_eq in Hx. apply IH in Hab. congruence.
  - intros H. injection H as -> ->.
    rewrite N.eqb_refl. simpl. now apply IH.
Qed.

Lemma pystr_eqb_refl (a : pystr) : pystr_eqb a a = true.
Proof. now apply pystr_eqb_eq. Qed.

Lemma pystr_eqb_neq (a b : pystr) : pystr_eqb a b = false <-> a <> b.
Proof.
  split.
  - intros H E. apply pystr_eqb_eq in E. congruence.
  - intros H. destruct (pystr_eqb a b) eqn:E; [|reflexivity].
    apply pystr_eqb_eq in E. contradiction.
Qed.

Lemma excluded_In (k : pystr) : excluded k = true <-> In k EXCLUDED.
Proof.
  unfold excluded, in_list. rewrite existsb_exists. split.
  - intros (x & Hx & E). simpl in E. apply pystr_eqb_eq in E. now subst.
  - intros H. exists k. split; [assumption|]. simpl. apply pystr_eqb_refl.
Qed.

Lemma dict_get_In_keys (d : list (pystr * pyval)) (k : pystr) :
  In k (map fst d) -> dict_get d k <> None.
Proof.
  induction d as [|[k' x] d IH]; simpl; [tauto|].
  intros [E|H].
  - subst. now rewrite pystr_eqb_refl.
  - destruct (pystr_eqb k' k); [discriminate|auto].
Qed.

Lemma dict_get_NoDup (d : list (pystr * pyval)) (k : pystr) (v : pyval) :
  NoDup (map fst d) -> In (k, v) d -> dict_get d k = Some v.
Proof.
  induction d as [|[k' x] d IH]; simpl; [tauto|].
  intros ND [E|H].
  - injection E as -> ->. now rewrite pystr_eqb_refl.
  - inversion ND as [|? ? Hnot ND']; subst.
    destruct (pystr_eqb k' k) eqn:E.
    + apply pystr_eqb_eq in E. subst. exfalso. apply Hnot.
      change k with (fst (k, v)). now apply in_map.
    + auto.
Qed.

Lemma dict_get_without (d1 d2 : list (pystr * pyval)) (k k' : pystr) (v : pyval) :
  k <> k' -> dict_get (d1 ++ (k, v) :: d2) k' = dict_get (d1 ++ d2) k'.
Proof.
  intros Hne. induction d1 as [|[k1 x1] d1 IH]; simpl.
  - apply pystr_eqb_neq in Hne. now rewrite Hne.
  - now rewrite IH.
Qed.

Section TextProperties.

Variable isprintable : char -> bool.

Lemma card_step_dict (d : list (pystr * pyval)) (acc k : pystr) :
  dict_get d k <> None ->
  card_step isprintable (PDict d) acc (PStr k)
  = inr (acc ++ fragment_of isprintable d k).
Proof.
  intros Hk. unfold card_step, fragment_of, excluded.
  destruct (in_list (PStr k) EXCLUDED); simpl.
  - now rewrite app_nil_r.
  - destruct (dict_get d k) as [v|]; [|congruence]. simpl.
    unfold fragment, ret. now rewrite <- !app_assoc.
Qed.

Lemma for_each_keys (d : list (pystr * pyval)) (ks : list pystr) (acc : pystr) :
  (forall k, In k ks -> dict_get d k <> None) ->
  for_each (card_step isprintable (PDict d)) (map PStr ks) acc
  = inr (acc ++ flat_map (fragment_of isprintable d) ks).
Proof.
  revert acc. induction ks as [|k ks IH]; intros acc Hks; simpl.
  - now rewrite app_nil_r.
  - rewrite card_step_dict by (apply Hks; now left). simpl.
    rewrite IH by (intros; apply Hks; now right).
    now rewrite <- app_assoc.
Qed.

(** The text of a record in closed form: it is total on records. *)
Lemma card_text_dict (d : list (pystr * pyval)) :
  card_text isprintable (PDict d)
  = inr (PREFIX ++ flat_map (fragment_of isprintable d) (map fst d)).
Proof.
  unfold card_text. simpl. rewrite <- (map_map fst PStr).
  apply for_each_keys. intros k. apply dict_get_In_keys.
Qed.

End TextProperties.

Lemma flat_map_ext_In {A B : Type} (f g : A -> list B) (l : list A) :
  (forall a, In a l -> f a = g a) -> flat_map f l = flat_map g l.
Proof.
  induction l as [|a l IH]; simpl; intros H; [reflexivity|].
  rewrite (H a) by now left. f_equal. apply IH. intros; apply H; now right.
Qed.

Section Prefix.

Variable isprintable : char -> bool.

Lemma card_step_extends (card key : pyval) (acc acc' : pystr) :
  card_step isprintable card acc key = inr acc' -> exists rest, acc' = acc ++ rest.
Proof.
  unfold card_step. destruct (negb (in_list key EXCLUDED)).
  - destruct (getitem card key) as [e|item]; simpl; [discriminate|].
    destruct (str_add (u ", ") key) as [e|front]; simpl; [discriminate|].
    intros H. injection H as <-. eauto.
  - intros H. injection H as <-. exists []. now rewrite app_nil_r.
Qed.

Lemma for_each_extends (card : pyval) (keys : list pyval) (acc text : pystr) :
  for_each (card_step isprintable card) keys acc = inr text ->
  exists rest, text = acc ++ rest.
Proof.
  revert acc. induction keys as [|key keys IH]; intros acc; simpl.
  - intros H. injection H as <-. exists []. now rewrite app_nil_r.
  - destruct (card_step isprintable card acc key) as [e|acc'] eqn:E; simpl;
      [discriminate|].
    intros H. apply IH in H as [rest ->].
    apply card_step_extends in E as [rest' ->].
    exists (rest' ++ rest). now rewrite app_assoc.
Qed.

Lemma card_row_inv (card : pyval) (cells : list pyval) :
  card_row isprintable card = inr cells ->
  exists text pack_name code,
    card_text isprintable card = inr text
    /\ getitem card (PStr (u "pack_name")) = inr pack_name
    /\ getitem card (PStr (u "code")) = inr code
    /\ cells = row_cells pack_name code text.
Proof.
  unfold card_row.
  destruct (card_text isprintable card) as [e|text]; simpl; [discriminate|].
  destruct (getitem card (PStr (u "pack_name"))) as [e|p]; simpl; [discriminate|].
  destruct (getitem card (PStr (u "code"))) as [e|c]; simpl; [discriminate|].
  intros H. injection H as <-. now exists text, p, c.
Qed.

Lemma fragment_of_without (d1 d2 : list (pystr * pyval)) (k k' : pystr) (v : pyval) :
  excluded k = true ->
  fragment_of isprintable (d1 ++ (k, v) :: d2) k'
  = fragment_of isprintable (d1 ++ d2) k'.
Proof.
  intros Hk. unfold fragment_of.
  destruct (excluded k') eqn:Hk'; [reflexivity|].
  rewrite dict_get_without; [reflexivity|]. congruence.
Qed.

End Prefix.

Ltac distinct_keys :=
  cbv; repeat (constructor; [simpl; intuition discriminate|]); constructor.

(** C5.  Whenever the script makes the row of a card, the text cell of the
    row begins with the literal [Game Name : Arkham Horror]: the row has
    the four cells of line 27 and its text is the prefix followed by what
    the keys added. *)
Theorem text_begins_with_prefix (isprintable : char -> bool) (card : pyval)
  (cells : list pyval) :
  card_row isprintable card = inr cells ->
  exists pack_name code rest,
    cells = [PStr (u "Arkham Horror"); pack_name; code; PStr (PREFIX ++ rest)]
    /\ startswith (u "Game Name : Arkham Horror") (PREFIX ++ rest) = true.
Proof.
  intros H. apply card_row_inv in H as (text & p & c & Ht & _ & _ & ->).
  unfold card_text in Ht.
  destruct (py_iter card) as [e|keys]; simpl in Ht; [discriminate|].
  apply for_each_extends in Ht as [rest ->].
  exists p, c, rest. split; reflexivity.
Qed.

Lemma text_begins_with_prefix_witness :
  card_row latin1_printable marked_up_card
  = inr [PStr (u "Arkham Horror"); PStr (u " The <b>Dunwich</b> Legacy ");
         PStr (u " <b>01003</b> ");
         PStr (u "Game Name : Arkham Horror, code : 01003, pack_name : The Dunwich Legacy, <b>, x : Elder Sign, xp : 2")]
  /\ exists pack_name code rest,
       [PStr (u "Arkham Horror"); PStr (u " The <b>Dunwich</b> Legacy ");
        PStr (u " <b>01003</b> ");
        PStr (u "Game Name : Arkham Horror, code : 01003, pack_name : The Dunwich Legacy, <b>, x : Elder Sign, xp : 2")]
       = [PStr (u "Arkham Horror"); pack_name; code; PStr (PREFIX ++ rest)]
       /\ startswith (u "Game Name : Arkham Horror") (PREFIX ++ rest) = true.
Proof.
  split; [reflexivity|].
  apply (text_begins_with_prefix latin1_printable marked_up_card). reflexivity.
Defined.

(** C2.  A key of the exclusion list is skipped with its value: a record
    that holds the excluded key [k], whatever its value [v] and wherever it
    stands, gets the text it would get without that key, so the key adds no
    fragment. *)
Theorem excluded_key_skipped (isprintable : char -> bool)
  (d1 d2 : list (pystr * pyval)) (k : pystr) (v : pyval) :
  In k EXCLUDED ->
  card_text isprintable (PDict (d1 ++ (k, v) :: d2))
  = card_text isprintable (PDict (d1 ++ d2)).
Proof.
  intros Hk. apply excluded_In in Hk.
  rewrite !card_text_dict. do 2 f_equal.
  rewrite !map_app, !flat_map_app. simpl.
  unfold fragment_of at 2. rewrite Hk. simpl.
  f_equal; [|]; apply flat_map_ext; intros k'; now apply fragment_of_without.
Qed.

Lemma excluded_key_skipped_witness :
  In (u "url") EXCLUDED
  /\ card_text latin1_printable
       (PDict ([(u "code", PStr (u "01003")); (u "name", PStr (u "Agnes"))]
               ++ (u "url", PStr (u "/card/01003")) :: [(u "xp", PInt 2)]))
     = card_text latin1_printable
         (PDict ([(u "code", PStr (u "01003")); (u "name", PStr (u "Agnes"))]
                 ++ [(u "xp", PInt 2)])).
Proof.
  split.
  - cbv. tauto.
  - apply (excluded_key_skipped latin1_printable). cbv. tauto.
Defined.

(** C9.  Only the value is transformed.  The text of a record is the
    prefix followed, for each key that is not excluded and in the order of
    the record, by [", "], the key as it is, [" : "], and the value's
    string with the occurrences of [<b>] removed in one pass, then those of
    [</b>], then the blanks at both ends. *)
Theorem key_verbatim_value_cleaned (isprintable : char -> bool)
  (d : list (pystr * pyval)) :
  NoDup (map fst d) ->
  card_text isprintable (PDict d)
  = inr (PREFIX ++
         flat_map
           (fun kv =>
              if in_list (PStr (fst kv)) EXCLUDED then []
              else u ", " ++ fst kv ++ u " : "
                   ++ strip (replace (replace (py_str isprintable (snd kv))
                                        (u "<b>") []) (u "</b>") []))
           d).
Proof.
  intros ND. rewrite card_text_dict. do 2 f_equal.
  rewrite flat_map_concat_map, map_map, <- flat_map_concat_map.
  apply flat_map_ext_In. intros [k v] Hkv. cbn [fst snd].
  unfold fragment_of, excluded.
  destruct (in_list (PStr k) EXCLUDED); [reflexivity|].
  now rewrite (dict_get_NoDup d k v ND Hkv).
Qed.

Lemma key_verbatim_value_cleaned_witness :
  NoDup (map fst [(u "<b>, x", PStr (u "  <b>Elder Sign</b>  "));
                  (u "url", PStr (u "/card/01003"));
                  (u " xp ", PInt 2)])
  /\ card_text latin1_printable
       (PDict [(u "<b>, x", PStr (u "  <b>Elder Sign</b>  "));
               (u "url", PStr (u "/card/01003"));
               (u " xp ", PInt 2)])
     = inr (u "Game Name : Arkham Horror, <b>, x : Elder Sign,  xp  : 2").
Proof.
  split; [distinct_keys|].
  rewrite (key_verbatim_value_cleaned latin1_printable); [reflexivity|].
  distinct_keys.
Defined.

(** ** The table loop *)

Lemma getitem_list_at (done todo : list pyval) (c : pyval) :
  getitem (PList (done ++ c :: todo)) (PInt (Z.of_nat (List.length done))) = inr c.
Proof.
  unfold getitem, as_index, seq_index.
  assert (Hlen : (List.length done < List.length (done ++ c :: todo))%nat)
    by (rewrite length_app; simpl; lia).
  destruct (Z.ltb_spec (Z.of_nat (List.length done)) 0) as [H|_]; [lia|].
  destruct (Z.leb_spec 0 (Z.of_nat (List.length done))) as [_|H]; [|lia].
  destruct (Z.ltb_spec (Z.of_nat (List.length done))
              (Z.of_nat (List.length (done ++ c :: todo)))) as [_|H]; [|lia].
  simpl. rewrite Nat2Z.id, nth_error_app2 by lia.
  now rewrite Nat.sub_diag.
Qed.

Lemma set_row_fresh (label : Z) (cells : list pyval) (rs : list (Z * list pyval)) :
  ~ In label (map fst rs) -> set_row label cells rs = rs ++ [(label, cells)].
Proof.
  induction rs as [|[l old] rs IH]; simpl; intros H; [reflexivity|].
  destruct (Z.eqb_spec l label) as [E|_]; [tauto|].
  f_equal. apply IH. tauto.
Qed.

Lemma label_fresh (n : nat) : ~ In (Z.of_nat n) (map Z.of_nat (seq 0 n)).
Proof.
  rewrite in_map_iff. intros (m & E & Hm). apply in_seq in Hm. lia.
Qed.

Section Table.

Variable isprintable : char -> bool.

Lemma card_row_valid (card : pyval) :
  valid_card card = true -> exists cells, card_row isprintable card = inr cells.
Proof.
  destruct card as [| | | | |l|d]; simpl; try discriminate.
  intros H. unfold card_row. rewrite card_text_dict. simpl.
  destruct (dict_get d (u "pack_name")) as [p|]; [|discriminate].
  destruct (dict_get d (u "code")) as [c|]; [|discriminate].
  simpl. eauto.
Qed.

Lemma card_rows_valid (cards : list pyval) :
  forallb valid_card cards = true ->
  exists cellss, Forall2 (fun card cells => card_row isprintable card = inr cells)
                   cards cellss.
Proof.
  induction cards as [|c cards IH]; simpl; intros H.
  - exists []. constructor.
  - apply andb_true_iff in H as [Hc Hcs].
    destruct (card_row_valid c Hc) as [cells Hcells].
    destruct (IH Hcs) as [cellss Hcellss].
    exists (cells :: cellss). now constructor.
Qed.

Lemma card_row_length (card : pyval) (cells : list pyval) :
  card_row isprintable card = inr cells -> List.length cells = 4%nat.
Proof.
  intros H. apply card_row_inv in H as (t & p & c & _ & _ & _ & ->). reflexivity.
Qed.

(** One round of the loop appends the row of the card it visits, under the
    next label. *)
Lemma loop_body_appends (done todo : list pyval) (c : pyval)
  (cells : list pyval) (rs : list (Z * list pyval)) :
  card_row isprintable c = inr cells ->
  map fst rs = map Z.of_nat (seq 0 (List.length done)) ->
  loop_body isprintable (PList (done ++ c :: todo))
    (mkDataFrame HEADER rs) (List.length done)
  = inr (mkDataFrame HEADER (rs ++ [(Z.of_nat (List.length done), cells)])).
Proof.
  intros Hrow Hlabels. unfold loop_body.
  rewrite getitem_list_at. simpl. rewrite Hrow. simpl.
  assert (Hlen : List.length rs = List.length done).
  { rewrite <- (length_map fst rs), Hlabels, length_map, length_seq.
    reflexivity. }
  unfold loc_setitem, df_len. simpl.
  rewrite (card_row_length c cells Hrow). simpl. rewrite Hlen.
  rewrite set_row_fresh; [reflexivity|].
  rewrite Hlabels. apply label_fresh.
Qed.

Lemma loop_rows (todo done : list pyval) (cellss : list (list pyval))
  (rs : list (Z * list pyval)) :
  Forall2 (fun card cells => card_row isprintable card = inr cells) todo cellss ->
  map fst rs = map Z.of_nat (seq 0 (List.length done)) ->
  for_each (loop_body isprintable (PList (done ++ todo)))
    (seq (List.length done) (List.length todo)) (mkDataFrame HEADER rs)
  = inr (mkDataFrame HEADER
           (rs ++ combine (map Z.of_nat (seq (List.length done) (List.length todo)))
                    cellss)).
Proof.
  intros H. revert done rs.
  induction H as [|c cells todo cellss Hc _ IH]; intros done rs Hlabels; simpl.
  - now rewrite app_nil_r.
  - rewrite (loop_body_appends done todo c cells rs Hc Hlabels). simpl.
    replace (done ++ c :: todo) with ((done ++ [c]) ++ todo)
      by now rewrite <- app_assoc.
    replace (S (List.length done)) with (List.length (done ++ [c]))
      by (rewrite length_app; simpl; lia).
    rewrite IH.
    + now rewrite <- app_assoc.
    + rewrite map_app, length_app. simpl.
      rewrite Nat.add_1_r, seq_S, map_app, Hlabels. reflexivity.
Qed.

Lemma build_table_rows (cards : list pyval) (cellss : list (list pyval)) :
  Forall2 (fun card cells => card_row isprintable card = inr cells) cards cellss ->
  build_table isprintable (PList cards)
  = inr (mkDataFrame HEADER
           (combine (map Z.of_nat (seq 0 (List.length cards))) cellss)).
Proof.
  intros H. unfold build_table, tqdm. simpl.
  apply (loop_rows cards [] cellss [] H). reflexivity.
Qed.

End Table.

Lemma Forall2_nth_error {A B : Type} {R : A -> B -> Prop} {l : list A}
  {l' : list B} (i : nat) {a : A} :
  Forall2 R l l' -> nth_error l i = Some a ->
  exists b, nth_error l' i = Some b /\ R a b.
Proof.
  intros H. revert i. induction H as [|x y l l' Hxy _ IH]; intros [|i]; simpl;
    try discriminate.
  - intros E. injection E as <-. eauto.
  - apply IH.
Qed.

(** C7.  The worked example: a document that decodes to the one card
    [{code: 01001, pack_name: Core Set, name: Roland Banks, spoiler: true}]
    yields a table of exactly one row, with [Arkham Horror], [Core Set],
    [01001] and the text that lists [code], [pack_name] and [name] in the
    order of the record and leaves [spoiler] out. *)
Theorem worked_example (isprintable : char -> bool)
  (json_loads : pystr -> option pyval) (fs : files) (content : pystr) :
  all_cards_json fs = Some content ->
  json_loads content = Some (PList [roland_banks]) ->
  read_cards_json isprintable json_loads fs
  = (inr tt,
     mkFiles (Some content)
       (Some (mkParquet
                [u "game_name"; u "expansion"; u "id"; u "text"]
                [[PStr (u "Arkham Horror"); PStr (u "Core Set");
                  PStr (u "01001");
                  PStr (u "Game Name : Arkham Horror, code : 01001, pack_name : Core Set, name : Roland Banks")]]))).
Proof.
  intros Hfile Hloads. unfold read_cards_json, load.
  rewrite Hfile, Hloads. reflexivity.
Qed.

Lemma worked_example_witness :
  all_cards_json (mkFiles (Some roland_banks_json) None) = Some roland_banks_json
  /\ sample_loads roland_banks_json = Some (PList [roland_banks])
  /\ read_cards_json latin1_printable sample_loads
       (mkFiles (Some roland_banks_json) None)
     = (inr tt,
        mkFiles (Some roland_banks_json)
          (Some (mkParquet
                   [u "game_name"; u "expansion"; u "id"; u "text"]
                   [[PStr (u "Arkham Horror"); PStr (u "Core Set");
                     PStr (u "01001");
                     PStr (u "Game Name : Arkham Horror, code : 01001, pack_name : Core Set, name : Roland Banks")]]))).
Proof.
  split; [reflexivity|]. split; [reflexivity|].
  apply (worked_example latin1_printable sample_loads
           (mkFiles (Some roland_banks_json) None) roland_banks_json);
    reflexivity.
Defined.

(** C8.  On an empty array the run succeeds and writes a table with no
    row and exactly the four columns [game_name], [expansion], [id] and
    [text]; the stored table has no column for the index. *)
Theorem empty_array_writes_header_only (isprintable : char -> bool)
  (json_loads : pystr -> option pyval) (fs : files) (content : pystr) :
  all_cards_json fs = Some content ->
  json_loads content = Some (PList []) ->
  read_cards_json isprintable json_loads fs
  = (inr tt,
     mkFiles (Some content)
       (Some (mkParquet [u "game_name"; u "expansion"; u "id"; u "text"] []))).
Proof.
  intros Hfile Hloads. unfold read_cards_json, load.
  rewrite Hfile, Hloads. reflexivity.
Qed.

Lemma empty_array_writes_header_only_witness :
  all_cards_json (files_with (PList [])) = Some (u "[]")
  /\ sample_loads (u "[]") = Some (PList [])
  /\ read_cards_json latin1_printable sample_loads (files_with (PList []))
     = (inr tt,
        mkFiles (Some (u "[]"))
          (Some (mkParquet [u "game_name"; u "expansion"; u "id"; u "text"] []))).
Proof.
  split; [reflexivity|]. split; [reflexivity|].
  apply (empty_array_writes_header_only latin1_printable sample_loads
           (files_with (PList [])) (u "[]")); reflexivity.
Defined.

(** ** Runs that fail *)

Lemma short_name_not_listed (c : char) (names : list pystr) :
  forallb (fun name => 2 <=? List.length name)%nat names = true ->
  in_list (PStr [c]) names = false.
Proof.
  unfold in_list. induction names as [|name names IH]; simpl; [reflexivity|].
  intros H. apply andb_true_iff in H as [Hlen Hrest].
  rewrite (IH Hrest), orb_false_r.
  destruct name as [|x [|y name]]; simpl in *; try discriminate.
  apply andb_false_r.
Qed.

Section Failures.

Variable isprintable : char -> bool.

Lemma card_row_invalid (card : pyval) :
  valid_card card = false -> exists e, card_row isprintable card = inl e.
Proof.
  intros Hbad. unfold card_row.
  destruct card as [|b|z|r|s|l|d]; try (now eexists).
  - destruct s as [|c s]; [now eexists|].
    unfold card_text. simpl py_iter. cbn [bind ret map for_each].
    unfold card_step at 1. rewrite short_name_not_listed by reflexivity.
    now eexists.
  - destruct (card_text isprintable (PList l)); now eexists.
  - rewrite card_text_dict. simpl in *.
    destruct (dict_get d (u "pack_name")); [|now eexists].
    destruct (dict_get d (u "code")); [discriminate|now eexists].
Qed.

Lemma loop_fails (todo done : list pyval) (df : DataFrame) :
  forallb valid_card todo = false ->
  exists e,
    for_each (loop_body isprintable (PList (done ++ todo)))
      (seq (List.length done) (List.length todo)) df = inl e.
Proof.
  revert done df. induction todo as [|c todo IH]; intros done df; simpl;
    [discriminate|].
  intros Hbad. unfold loop_body at 1. rewrite getitem_list_at. simpl.
  destruct (card_row isprintable c) as [e|cells] eqn:Hrow; simpl; [now eexists|].
  destruct (loc_setitem df (Z.of_nat (df_len df)) cells) as [e|df'];
    simpl; [now eexists|].
  destruct (valid_card c) eqn:Hc; simpl in Hbad.
  - replace (done ++ c :: todo) with ((done ++ [c]) ++ todo)
      by now rewrite <- app_assoc.
    replace (S (List.length done)) with (List.length (done ++ [c]))
      by (rewrite length_app; simpl; lia).
    now apply IH.
  - destruct (card_row_invalid c Hc) as [e He]. congruence.
Qed.

(** A decoded document that is not accepted stops the loop, or [len]
    before it, with an exception. *)
Lemma build_table_rejects (card_data : pyval) :
  accepted_document card_data = false ->
  exists e, build_table isprintable card_data = inl e.
Proof.
  intros Hbad. unfold build_table, tqdm.
  destruct card_data as [|b|z|r|s|l|d]; try (now eexists).
  - destruct s as [|c s]; [discriminate|].
    simpl py_len. cbn [bind ret]. simpl seq. cbn [for_each].
    unfold loop_body at 1.
    replace (getitem (PStr (c :: s)) (PInt (Z.of_nat 0))) with
      (@inr exn pyval (PStr [c])) by reflexivity.
    cbn [bind].
    destruct (card_row_invalid (PStr [c]) eq_refl) as [e He].
    rewrite He. now eexists.
  - simpl py_len. cbn [bind ret].
    apply (loop_fails l []). exact Hbad.
  - destruct d as [|kv d]; [discriminate|]. now eexists.
Qed.

End Failures.

(** C6, as the code has it.  A run aborts with an exception and leaves
    the files as they were, so it writes no table, whenever the input file
    is missing, or its content is not JSON, or the document is not
    accepted: a top-level value other than an array, an empty object or an
    empty string, or an array with an element that is not an object
    holding [pack_name] and [code]. *)
Theorem malformed_input_aborts (isprintable : char -> bool)
  (json_loads : pystr -> option pyval) (fs : files) :
  all_cards_json fs = None
  \/ (exists content,
        all_cards_json fs = Some content /\ json_loads content = None)
  \/ (exists content card_data,
        all_cards_json fs = Some content
        /\ json_loads content = Some card_data
        /\ accepted_document card_data = false) ->
  exists e, read_cards_json isprintable json_loads fs = (inl e, fs).
Proof.
  unfold read_cards_json, load.
  intros [Hmissing | [(content & Hfile & Hjson) | (content & v & Hfile & Hjson & Hbad)]].
  - rewrite Hmissing. now eexists.
  - rewrite Hfile, Hjson. now eexists.
  - rewrite Hfile, Hjson. simpl.
    destruct (build_table_rejects isprintable v Hbad) as [e He].
    rewrite He. now eexists.
Qed.

Lemma malformed_input_aborts_witness :
  accepted_document (PList [roland_banks; PList [PStr (u "url")]]) = false
  /\ exists e,
       read_cards_json latin1_printable sample_loads
         (files_with (PList [roland_banks; PList [PStr (u "url")]]))
       = (inl e, files_with (PList [roland_banks; PList [PStr (u "url")]])).
Proof.
  split; [reflexivity|].
  apply (malformed_input_aborts latin1_printable sample_loads
           (files_with (PList [roland_banks; PList [PStr (u "url")]]))).
  right. right.
  exists (json_text (PList [roland_banks; PList [PStr (u "url")]])),
         (PList [roland_banks; PList [PStr (u "url")]]).
  split; [reflexivity|]. split; reflexivity.
Defined.

(** The run of the witness stops in its second round, at the subscription
    of a list by a string, and the table of the earlier run stays. *)
Example abort_in_second_round :
  read_cards_json latin1_printable sample_loads
    (files_with (PList [roland_banks; PList [PStr (u "url")]]))
  = (inl TypeError, files_with (PList [roland_banks; PList [PStr (u "url")]])).
Proof. reflexivity. Qed.

(** C6, as stated, fails: the document [{}] is not an array, and the run
    over it does not abort; it replaces the table in place by one with no
    rows. *)
Lemma empty_object_run_succeeds :
  all_cards_json (files_with (PDict [])) = Some (u "{}")
  /\ sample_loads (u "{}") = Some (PDict [])
  /\ is_array (PDict []) = false
  /\ read_cards_json latin1_printable sample_loads (files_with (PDict []))
     = (inr tt, mkFiles (Some (u "{}")) (Some (mkParquet HEADER [])))
  /\ arkham_horror_card_data (files_with (PDict [])) <> Some (mkParquet HEADER []).
Proof.
  repeat split; try reflexivity. discriminate.
Qed.

(** ** Occurrences of a pattern *)

Lemma startswith_app (p s : pystr) :
  startswith p s = true <-> exists rest, s = p ++ rest.
Proof.
  revert s. induction p as [|x p IH]; intros s; simpl.
  - split; [eauto|reflexivity].
  - destruct s as [|y s].
    + split; [discriminate|]. intros [rest H]. discriminate.
    + rewrite andb_true_iff, N.eqb_eq, IH. split.
      * intros [-> [rest ->]]. eauto.
      * intros [rest H]. injection H as -> ->. eauto.
Qed.

Lemma startswith_cons_neq (x d : char) (p s : pystr) :
  x <> d -> startswith (x :: p) (d :: s) = false.
Proof.
  intros H. simpl. apply N.eqb_neq in H. now rewrite H.
Qed.

Lemma contains_app (p s : pystr) :
  contains p s = true <-> exists a b, s = a ++ p ++ b.
Proof.
  induction s as [|c s IH]; simpl.
  - rewrite orb_false_r, startswith_app. split.
    + intros [rest H]. exists [], rest. exact H.
    + intros (a & b & H). destruct a; simpl in H; [eauto|discriminate].
  - rewrite orb_true_iff, startswith_app, IH. split.
    + intros [[rest H] | (a & b & H)].
      * exists [], rest. exact H.
      * exists (c :: a), b. simpl. now rewrite H.
    + intros (a & b & H). destruct a as [|c' a]; simpl in H.
      * left. eauto.
      * right. injection H as -> ->. eauto.
Qed.

Lemma contains_tail (p : pystr) (c : char) (s : pystr) :
  contains p (c :: s) = false -> contains p s = false.
Proof.
  simpl. intros H. apply orb_false_iff in H. tauto.
Qed.

Lemma contains_nil (p : pystr) : p <> [] -> contains p [] = false.
Proof.
  intros H. destruct p; [contradiction|reflexivity].
Qed.

(** A pattern cannot lie across a character it does not hold. *)
Lemma contains_split (p a b : pystr) (c : char) :
  ~ In c p -> contains p (a ++ c :: b) = true ->
  contains p a = true \/ contains p b = true.
Proof.
  intros Hc H. apply contains_app in H as (x & y & H).
  apply app_eq_app in H as [l [[Ha Hl] | [Hx Hl]]].
  - (* the occurrence starts in [a] *)
    subst a. apply app_eq_app in Hl as [l' [[Hp Hl'] | [Hl Hy]]].
    + destruct l' as [|c' l']; simpl in Hl'.
      * rewrite app_nil_r in Hp. subst l. left. apply contains_app.
        exists x, []. now rewrite !app_nil_r.
      * injection Hl' as -> _. exfalso. apply Hc. subst p.
        apply in_or_app. right. now left.
    + subst l. left. apply contains_app. exists x, l'. reflexivity.
  - (* the occurrence starts at [c] or after it *)
    destruct l as [|c' l]; simpl in Hl.
    + destruct p as [|c' p]; simpl in Hl.
      * left. apply contains_app. exists a, []. now rewrite app_nil_r.
      * injection Hl as -> _. exfalso. apply Hc. now left.
    + injection Hl as _ ->. right. apply contains_app. eauto.
Qed.

Lemma contains_join (p x r : pystr) :
  contains p x = false -> contains p r = false ->
  (r = [] \/ exists c r', r = c :: r' /\ ~ In c p) ->
  contains p (x ++ r) = false.
Proof.
  intros Hx Hr [-> | (c & r' & -> & Hc)].
  - now rewrite app_nil_r.
  - destruct (contains p (x ++ c :: r')) eqn:E; [|reflexivity].
    apply contains_split in E; [|assumption].
    apply contains_tail in Hr. destruct E; congruence.
Qed.

Lemma contains_cons (p r : pystr) (c : char) :
  p <> [] -> ~ In c p -> contains p r = false -> contains p (c :: r) = false.
Proof.
  intros Hp Hc Hr.
  destruct (contains p (c :: r)) eqn:E; [|reflexivity].
  apply (contains_split p [] r c Hc) in E.
  rewrite (contains_nil p Hp) in E. destruct E; congruence.
Qed.

Lemma lstrip_suffix (s : pystr) : exists a, s = a ++ lstrip s.
Proof.
  induction s as [|c s [a IH]]; simpl.
  - now exists [].
  - destruct (isspace c).
    + exists (c :: a). simpl. now rewrite <- IH.
    + now exists [].
Qed.

Lemma strip_within (s : pystr) : exists a b, s = a ++ strip s ++ b.
Proof.
  unfold strip, rstrip.
  destruct (lstrip_suffix s) as [a Ha].
  destruct (lstrip_suffix (rev (lstrip s))) as [b Hb].
  exists a, (rev b). rewrite <- rev_app_distr, <- Hb, rev_involutive.
  exact Ha.
Qed.

Lemma contains_strip (p s : pystr) :
  contains p s = false -> contains p (strip s) = false.
Proof.
  intros H. destruct (contains p (strip s)) eqn:E; [|reflexivity].
  apply contains_app in E as (x & y & E).
  destruct (strip_within s) as (a & b & Hs).
  assert (contains p s = true); [|congruence].
  apply contains_app. exists (a ++ x), (y ++ b).
  rewrite Hs, E, <- !app_assoc. reflexivity.
Qed.


(** ** One pass of [replace] over plain markup *)

Lemma replace_from_miss (old : pystr) (c : char) (s : pystr) :
  startswith old (c :: s) = false ->
  replace_from old [] 0 (c :: s) = c :: replace_from old [] 0 s.
Proof.
  intros H. cbn [replace_from]. now rewrite H.
Qed.

Lemma replace_from_skip (old x rest : pystr) :
  replace_from old [] (List.length x) (x ++ rest) = replace_from old [] 0 rest.
Proof.
  induction x as [|c x IH]; simpl; [|exact IH].
  destruct rest; reflexivity.
Qed.

Lemma replace_from_hit (old rest : pystr) :
  old <> [] -> replace_from old [] 0 (old ++ rest) = replace_from old [] 0 rest.
Proof.
  destruct old as [|c old]; [contradiction|]. intros _.
  change ((c :: old) ++ rest) with (c :: (old ++ rest)).
  cbn [replace_from].
  replace (startswith (c :: old) (c :: old ++ rest)) with true
    by (symmetry; apply startswith_app; now exists rest).
  replace (List.length (c :: old) - 1)%nat with (List.length old)
    by (simpl; lia).
  apply replace_from_skip.
Qed.

Lemma markup_safe_cons (tags : list pystr) (c : char) (s : pystr) :
  markup_safe tags (c :: s)
  = (if (c =? 60)%N
     then existsb (fun tag => startswith tag (c :: s)) tags || blocked s
     else true)
    && markup_safe tags s.
Proof. reflexivity. Qed.

Lemma markup_safe_tail (tags : list pystr) (c : char) (s : pystr) :
  markup_safe tags (c :: s) = true -> markup_safe tags s = true.
Proof.
  rewrite markup_safe_cons. intros H. apply andb_true_iff in H. tauto.
Qed.

Lemma not_angle_kept (old s : pystr) :
  not_angle s = true -> not_angle (replace_from (60%N :: old) [] 0 s) = true.
Proof.
  destruct s as [|c s]; [reflexivity|]. intros H.
  assert (Hc : c <> 60%N).
  { intros ->. discriminate. }
  rewrite replace_from_miss
    by (apply startswith_cons_neq; intros E; exact (Hc (eq_sym E))).
  exact H.
Qed.

(** What is blocked stays blocked when the occurrences of a pattern that
    begins with [<] are taken out. *)
Lemma blocked_kept (old s : pystr) :
  blocked s = true -> blocked (replace_from (60%N :: old) [] 0 s) = true.
Proof.
  destruct s as [|d s1]; [reflexivity|]. cbn [blocked].
  destruct (N.eqb_spec d 60) as [|Hd]; [discriminate|].
  rewrite replace_from_miss
    by (apply startswith_cons_neq; intros E; exact (Hd (eq_sym E))).
  cbn [blocked]. apply N.eqb_neq in Hd. rewrite Hd.
  destruct (d =? 98)%N; [apply not_angle_kept|].
  destruct (d =? 47)%N; [|reflexivity].
  destruct s1 as [|e s2]; [reflexivity|].
  destruct (N.eqb_spec e 60) as [|He]; [discriminate|].
  rewrite replace_from_miss
    by (apply startswith_cons_neq; intros E; exact (He (eq_sym E))).
  apply N.eqb_neq in He. rewrite He.
  destruct (e =? 98)%N; [apply not_angle_kept|reflexivity].
Qed.

(** Removing [<b>] leaves every [<] either at the head of a whole [</b>]
    or unable to begin a tag. *)
Lemma remove_open_tags (n : nat) (s : pystr) :
  (List.length s <= n)%nat ->
  markup_safe [u "<b>"; u "</b>"] s = true ->
  markup_safe [u "</b>"] (replace_from (u "<b>") [] 0 s) = true.
Proof.
  revert s. induction n as [|n IH]; intros [|c s] Hlen Hsafe;
    try reflexivity; simpl in Hlen; [lia|].
  pose proof (markup_safe_tail _ _ _ Hsafe) as Htail.
  rewrite markup_safe_cons in Hsafe. apply andb_true_iff in Hsafe as [Hhead _].
  destruct (N.eqb_spec c 60) as [->|Hc].
  - cbn [existsb] in Hhead. rewrite orb_false_r in Hhead.
    destruct (startswith (u "<b>") ((60%N : char) :: s)) eqn:HB.
    { apply startswith_app in HB as [rest HB].
      change (u "<b>" ++ rest) with (60 :: 98 :: 62 :: rest)%N in HB.
      injection HB as ->.
      change (60 :: 98 :: 62 :: rest)%N with (u "<b>" ++ rest).
      rewrite replace_from_hit by discriminate.
      apply IH; [simpl in Hlen; lia|].
      now apply markup_safe_tail in Htail. }
    rewrite (replace_from_miss _ _ _ HB).
    destruct (startswith (u "</b>") ((60%N : char) :: s)) eqn:HE.
    { apply startswith_app in HE as [rest HE].
      change (u "</b>" ++ rest) with (60 :: 47 :: 98 :: 62 :: rest)%N in HE.
      injection HE as ->.
      rewrite !replace_from_miss by reflexivity.
      change (markup_safe [u "</b>"] (replace_from (u "<b>") [] 0 rest) = true).
      apply IH; [simpl in Hlen; lia|].
      now do 2 apply markup_safe_tail in Htail. }
    simpl in Hhead.
    rewrite markup_safe_cons, (IH s ltac:(lia) Htail), andb_true_r.
    change (u "<b>") with (60 :: 98 :: [62])%N.
    rewrite (blocked_kept _ s Hhead). apply orb_true_r.
  - rewrite replace_from_miss
      by (apply startswith_cons_neq; intros E; exact (Hc (eq_sym E))).
    rewrite markup_safe_cons.
    apply N.eqb_neq in Hc. rewrite Hc. simpl.
    apply IH; [lia|assumption].
Qed.

(** Removing [</b>] after that leaves no [<] that can begin a tag. *)
Lemma remove_close_tags (n : nat) (s : pystr) :
  (List.length s <= n)%nat ->
  markup_safe [u "</b>"] s = true ->
  markup_safe [] (replace_from (u "</b>") [] 0 s) = true.
Proof.
  revert s. induction n as [|n IH]; intros [|c s] Hlen Hsafe;
    try reflexivity; simpl in Hlen; [lia|].
  pose proof (markup_safe_tail _ _ _ Hsafe) as Htail.
  rewrite markup_safe_cons in Hsafe. apply andb_true_iff in Hsafe as [Hhead _].
  destruct (N.eqb_spec c 60) as [->|Hc].
  - cbn [existsb] in Hhead. rewrite orb_false_r in Hhead.
    destruct (startswith (u "</b>") ((60%N : char) :: s)) eqn:HE.
    { apply startswith_app in HE as [rest HE].
      change (u "</b>" ++ rest) with (60 :: 47 :: 98 :: 62 :: rest)%N in HE.
      injection HE as ->.
      change (60 :: 47 :: 98 :: 62 :: rest)%N with (u "</b>" ++ rest).
      rewrite replace_from_hit by discriminate.
      apply IH; [simpl in Hlen; lia|].
      now do 2 apply markup_safe_tail in Htail. }
    rewrite (replace_from_miss _ _ _ HE).
    simpl in Hhead.
    rewrite markup_safe_cons, (IH s ltac:(lia) Htail), andb_true_r.
    change (u "</b>") with (60 :: 47 :: 98 :: [62])%N.
    rewrite (blocked_kept _ s Hhead). apply orb_true_r.
  - rewrite replace_from_miss
      by (apply startswith_cons_neq; intros E; exact (Hc (eq_sym E))).
    rewrite markup_safe_cons.
    apply N.eqb_neq in Hc. rewrite Hc. simpl.
    apply IH; [lia|assumption].
Qed.

Lemma no_tag_without_opening (s : pystr) :
  markup_safe [] s = true -> has_tag s = false.
Proof.
  unfold has_tag. induction s as [|c s IH]; [reflexivity|].
  intros Hsafe. pose proof (markup_safe_tail _ _ _ Hsafe) as Htail.
  apply IH in Htail. apply orb_false_iff in Htail as [HB HE].
  rewrite markup_safe_cons in Hsafe. apply andb_true_iff in Hsafe as [Hhead _].
  cbn [contains]. rewrite HB, HE, !orb_false_r.
  apply orb_false_iff. split.
  - destruct (startswith (u "<b>") (c :: s)) eqn:H; [|reflexivity].
    apply startswith_app in H as [rest H].
    change (u "<b>" ++ rest) with (60 :: 98 :: 62 :: rest)%N in H.
    injection H as -> ->. discriminate.
  - destruct (startswith (u "</b>") (c :: s)) eqn:H; [|reflexivity].
    apply startswith_app in H as [rest H].
    change (u "</b>" ++ rest) with (60 :: 47 :: 98 :: 62 :: rest)%N in H.
    injection H as -> ->. discriminate.
Qed.

(** Line 25 leaves no tag in a value whose markup is not nested. *)
Lemma clean_no_tag (s : pystr) :
  no_nested_markup s = true -> has_tag (clean s) = false.
Proof.
  intros H. unfold clean.
  assert (Hraw : has_tag (replace (replace s (u "<b>") []) (u "</b>") []) = false).
  { apply no_tag_without_opening.
    apply (remove_close_tags (List.length (replace s (u "<b>") []))); [lia|].
    apply (remove_open_tags (List.length s)); [lia|exact H]. }
  unfold has_tag in *. apply orb_false_iff in Hraw as [HB HE].
  now rewrite !contains_strip.
Qed.

(** ** The text of a record, piece by piece *)

Section Markup.

Variable isprintable : char -> bool.

Lemma card_text_fragments (d : list (pystr * pyval)) :
  NoDup (map fst d) ->
  card_text isprintable (PDict d)
  = inr (PREFIX ++
         flat_map (fun kv => if excluded (fst kv) then []
                             else fragment isprintable (fst kv) (snd kv)) d).
Proof.
  intros ND. rewrite card_text_dict. do 2 f_equal.
  rewrite flat_map_concat_map, map_map, <- flat_map_concat_map.
  apply flat_map_ext_In. intros [k v] Hkv. cbn [fst snd].
  unfold fragment_of. destruct (excluded k); [reflexivity|].
  now rewrite (dict_get_NoDup d k v ND Hkv).
Qed.

Lemma fragment_app (k : pystr) (v : pyval) (r : pystr) :
  fragment isprintable k v ++ r
  = (44 :: 32 :: k ++ 32 :: 58 :: 32 :: clean (py_str isprintable v) ++ r)%N.
Proof.
  unfold fragment. rewrite <- !app_assoc. reflexivity.
Qed.

Lemma fragments_head (d : list (pystr * pyval)) :
  let r := flat_map (fun kv => if excluded (fst kv) then []
                               else fragment isprintable (fst kv) (snd kv)) d in
  r = [] \/ exists r', r = 44%N :: r'.
Proof.
  induction d as [|[k v] d IH]; simpl; [now left|].
  destruct (excluded k); [exact IH|].
  right. rewrite fragment_app. eauto.
Qed.

(** A pattern that holds none of the characters of the separators occurs
    in the fragments only where it occurs in a key or in a cleaned value. *)
Lemma fragments_without (p : pystr) (d : list (pystr * pyval)) :
  p <> [] -> ~ In 44%N p -> ~ In 32%N p -> ~ In 58%N p ->
  (forall k v, In (k, v) d -> excluded k = false ->
     contains p k = false /\ contains p (clean (py_str isprintable v)) = false) ->
  contains p
    (flat_map (fun kv => if excluded (fst kv) then []
                         else fragment isprintable (fst kv) (snd kv)) d)
  = false.
Proof.
  intros Hp H44 H32 H58. induction d as [|[k v] d IH]; intros Hd.
  - now apply contains_nil.
  - assert (Hrest : forall k' v', In (k', v') d -> excluded k' = false ->
              contains p k' = false
              /\ contains p (clean (py_str isprintable v')) = false)
      by (intros; apply Hd; [now right|assumption]).
    specialize (IH Hrest). cbn [flat_map fst snd].
    destruct (excluded k) eqn:Hk; [exact IH|].
    destruct (Hd k v (or_introl eq_refl) Hk) as [Hkey Hval].
    rewrite fragment_app.
    apply contains_cons; [assumption..|].
    apply contains_cons; [assumption..|].
    apply contains_join; [assumption| |right; eauto].
    apply contains_cons; [assumption..|].
    apply contains_cons; [assumption..|].
    apply contains_cons; [assumption..|].
    apply contains_join; [assumption..|].
    destruct (fragments_head d) as [E|[r' E]]; [now left|].
    right. exists 44%N, r'. split; assumption.
Qed.

Lemma text_without (p : pystr) (d : list (pystr * pyval)) :
  p <> [] -> ~ In 44%N p -> ~ In 32%N p -> ~ In 58%N p ->
  contains p PREFIX = false ->
  NoDup (map fst d) ->
  (forall k v, In (k, v) d -> excluded k = false ->
     contains p k = false /\ contains p (clean (py_str isprintable v)) = false) ->
  exists text,
    card_text isprintable (PDict d) = inr text /\ contains p text = false.
Proof.
  intros Hp H44 H32 H58 Hprefix ND Hd.
  rewrite (card_text_fragments d ND). eexists. split; [reflexivity|].
  apply contains_join; [assumption| |].
  - now apply fragments_without.
  - destruct (fragments_head d) as [E|[r' E]]; [now left|].
    right. exists 44%N, r'. split; assumption.
Qed.

End Markup.

Ltac not_in_tag := cbv; intuition discriminate.

(** C3, as the code has it.  The text of a record holds neither [<b>] nor
    [</b>] when no key that enters the text holds one of them and the
    markup of the values is not nested, that is, when every [<] of a
    value's string begins a whole [<b>] or [</b>] or cannot begin a tag;
    the removal is one pass per tag and the keys are not cleaned. *)
Theorem markup_stripped_when_not_nested (isprintable : char -> bool)
  (d : list (pystr * pyval)) :
  NoDup (map fst d) ->
  (forall k v, In (k, v) d -> excluded k = false ->
     has_tag k = false /\ no_nested_markup (py_str isprintable v) = true) ->
  exists text,
    card_text isprintable (PDict d) = inr text
    /\ contains (u "<b>") text = false
    /\ contains (u "</b>") text = false.
Proof.
  intros ND Hd.
  assert (Hclean : forall k v, In (k, v) d -> excluded k = false ->
            has_tag k = false
            /\ has_tag (clean (py_str isprintable v)) = false).
  { intros k v Hin Hk. destruct (Hd k v Hin Hk) as [Hkey Hval].
    split; [assumption|]. now apply clean_no_tag. }
  destruct (text_without isprintable (u "<b>") d) as (text & Htext & HB);
    [discriminate | not_in_tag | not_in_tag | not_in_tag | reflexivity
    | assumption | | ].
  { intros k v Hin Hk. destruct (Hclean k v Hin Hk) as [Hkey Hval].
    unfold has_tag in *. apply orb_false_iff in Hkey, Hval. tauto. }
  destruct (text_without isprintable (u "</b>") d) as (text' & Htext' & HE);
    [discriminate | not_in_tag | not_in_tag | not_in_tag | reflexivity
    | assumption | | ].
  { intros k v Hin Hk. destruct (Hclean k v Hin Hk) as [Hkey Hval].
    unfold has_tag in *. apply orb_false_iff in Hkey, Hval. tauto. }
  exists text. rewrite Htext in Htext'. injection Htext' as <-. auto.
Qed.

Lemma markup_stripped_when_not_nested_witness :
  NoDup (map fst elder_sign)
  /\ (forall k v, In (k, v) elder_sign -> excluded k = false ->
        has_tag k = false /\ no_nested_markup (py_str latin1_printable v) = true)
  /\ exists text,
       card_text latin1_printable (PDict elder_sign) = inr text
       /\ contains (u "<b>") text = false
       /\ contains (u "</b>") text = false.
Proof.
  assert (ND : NoDup (map fst elder_sign)) by distinct_keys.
  assert (Hd : forall k v, In (k, v) elder_sign -> excluded k = false ->
                 has_tag k = false
                 /\ no_nested_markup (py_str latin1_printable v) = true).
  { intros k v Hin Hk. unfold elder_sign in Hin. simpl in Hin.
    repeat (destruct Hin as [E|Hin];
            [injection E as <- <-;
             first [discriminate Hk | split; reflexivity]|]).
    contradiction. }
  split; [exact ND|]. split; [exact Hd|].
  exact (markup_stripped_when_not_nested latin1_printable elder_sign ND Hd).
Defined.

(** The text of that record, for the eye: the two tags are gone, the other
    markup stays. *)
Example elder_sign_text :
  card_text latin1_printable (PDict elder_sign)
  = inr (u "Game Name : Arkham Horror, code : 01004, name : Elder Sign, text : <i>Fast.</i> Spend 1 clue if 1 < 2., slots : ['Hand', 2]").
Proof. reflexivity. Qed.

(** C3, as stated, fails: the value of [name] holds [<b>], and so does the
    text of the row, because the removal of the inner tag joins the pieces
    of an outer one. *)
Lemma nested_tag_survives :
  getitem nested_tag_card (PStr (u "name")) = inr (PStr (u "<<b>b>Daisy"))
  /\ excluded (u "name") = false
  /\ contains (u "<b>") (py_str latin1_printable (PStr (u "<<b>b>Daisy"))) = true
  /\ card_row latin1_printable nested_tag_card
     = inr [PStr (u "Arkham Horror"); PStr (u "Core Set"); PStr (u "01002");
            PStr (u "Game Name : Arkham Horror, code : 01002, pack_name : Core Set, name : <b>Daisy")]
  /\ contains (u "<b>")
       (u "Game Name : Arkham Horror, code : 01002, pack_name : Core Set, name : <b>Daisy")
     = true.
Proof.
  repeat split; reflexivity.
Qed.

(** * Further properties of the script *)

(** ** The loop, round by round *)

Lemma for_each_app {S A : Type} (body : S -> A -> result S) (xs ys : list A) (s : S) :
  for_each body (xs ++ ys) s = (s' <- for_each body xs s ;; for_each body ys s').
Proof.
  revert s. induction xs as [|x xs IH]; intros s; simpl; [reflexivity|].
  destruct (body s x) as [e|s']; simpl; [reflexivity|apply IH].
Qed.

Section Rounds.

Variable isprintable : char -> bool.

(** The rounds over a run of cards that all give a row, whatever follows
    them in the array. *)
Lemma loop_rows_prefix (todo done more : list pyval)
  (cellss : list (list pyval)) (rs : list (Z * list pyval)) :
  Forall2 (fun card cells => card_row isprintable card = inr cells) todo cellss ->
  map fst rs = map Z.of_nat (seq 0 (List.length done)) ->
  for_each (loop_body isprintable (PList (done ++ todo ++ more)))
    (seq (List.length done) (List.length todo)) (mkDataFrame HEADER rs)
  = inr (mkDataFrame HEADER
           (rs ++ combine (map Z.of_nat (seq (List.length done) (List.length todo)))
                    cellss)).
Proof.
  intros H. revert done rs.
  induction H as [|c cells todo cellss Hc _ IH]; intros done rs Hlabels; simpl.
  - now rewrite app_nil_r.
  - rewrite (loop_body_appends isprintable done (todo ++ more) c cells rs Hc Hlabels).
    simpl.
    replace (done ++ c :: todo ++ more) with ((done ++ [c]) ++ todo ++ more)
      by now rewrite <- app_assoc.
    replace (S (List.length done)) with (List.length (done ++ [c]))
      by (rewrite length_app; simpl; lia).
    rewrite IH.
    + now rewrite <- app_assoc.
    + rewrite map_app, length_app. simpl.
      rewrite Nat.add_1_r, seq_S, map_app, Hlabels. reflexivity.
Qed.

(** The exception of the first card that gives no row is the exception of
    the whole loop. *)
Lemma build_table_first_bad (good rest : list pyval) (bad : pyval) (e : exn) :
  forallb valid_card good = true ->
  card_row isprintable bad = inl e ->
  build_table isprintable (PList (good ++ bad :: rest)) = inl e.
Proof.
  intros Hgood Hbad.
  destruct (card_rows_valid isprintable good Hgood) as [cellss Hrows].
  unfold build_table, tqdm. simpl py_len. cbn [bind ret].
  rewrite length_app. simpl List.length.
  rewrite seq_app, for_each_app. simpl seq.
  pose proof (loop_rows_prefix good [] (bad :: rest) cellss [] Hrows eq_refl)
    as Hloop.
  cbn [app List.length] in Hloop. unfold HEADER in Hloop. rewrite Hloop.
  cbn [bind for_each]. unfold loop_body at 1.
  rewrite getitem_list_at. cbn [bind]. rewrite Hbad. reflexivity.
Qed.

(** What the script does on an accepted document. *)
Lemma build_table_accepted (card_data : pyval) :
  accepted_document card_data = true ->
  exists cellss,
    Forall2 (fun card cells => card_row isprintable card = inr cells)
      (elements card_data) cellss
    /\ build_table isprintable card_data
       = inr (mkDataFrame HEADER
                (combine (range_labels (List.length (elements card_data))) cellss)).
Proof.
  intros Hok. destruct card_data as [|b|z|r|s|l|d]; try discriminate.
  - destruct s; [|discriminate]. exists []. split; [constructor|reflexivity].
  - destruct (card_rows_valid isprintable l Hok) as [cellss Hrows].
    exists cellss. split; [exact Hrows|].
    now apply build_table_rows.
  - destruct d; [|discriminate]. exists []. split; [constructor|reflexivity].
Qed.

Lemma build_table_accepts_only (card_data : pyval) (df : DataFrame) :
  build_table isprintable card_data = inr df -> accepted_document card_data = true.
Proof.
  intros H. destruct (accepted_document card_data) eqn:E; [reflexivity|].
  destruct (build_table_rejects isprintable card_data E) as [e He]. congruence.
Qed.

End Rounds.

(** ** Which exception a card raises *)

Section CardErrors.

Variable isprintable : char -> bool.

Lemma card_row_scalar (card : pyval) :
  is_scalar_or_string card = true -> card_row isprintable card = inl TypeError.
Proof.
  destruct card as [|b|z|r|s|l|d]; try discriminate; try reflexivity.
  intros _. destruct s as [|c s]; [reflexivity|].
  unfold card_row, card_text. simpl py_iter. cbn [bind ret map for_each].
  unfold card_step at 1. rewrite short_name_not_listed by reflexivity.
  reflexivity.
Qed.

Lemma card_row_missing_key (d : list (pystr * pyval)) :
  valid_card (PDict d) = false -> card_row isprintable (PDict d) = inl KeyError.
Proof.
  intros Hbad. unfold card_row. rewrite card_text_dict. simpl in *.
  destruct (dict_get d (u "pack_name")); [|reflexivity].
  destruct (dict_get d (u "code")); [discriminate|reflexivity].
Qed.

Lemma card_step_list (l : list pyval) (acc : pystr) (key : pyval) :
  match card_step isprintable (PList l) acc key with
  | inl e => e = TypeError \/ e = IndexError
  | inr acc' => acc' = acc
  end.
Proof.
  unfold card_step. destruct (negb (in_list key EXCLUDED)); [|reflexivity].
  unfold getitem.
  destruct key as [|b|z|r|s|l'|d]; simpl as_index; unfold raise, ret;
    cbn [bind]; auto;
    match goal with
    | |- context [seq_index ?z ?n] =>
        destruct (seq_index z n) as [i|]; cbn [bind]; [|auto]
    end;
    destruct (nth_error l i); cbn [bind str_add raise]; auto.
Qed.

Lemma card_text_list (l keys : list pyval) (acc : pystr) :
  match for_each (card_step isprintable (PList l)) keys acc with
  | inl e => e = TypeError \/ e = IndexError
  | inr _ => True
  end.
Proof.
  revert acc. induction keys as [|key keys IH]; intros acc; simpl; [exact I|].
  pose proof (card_step_list l acc key) as Hstep.
  destruct (card_step isprintable (PList l) acc key) as [e|acc']; simpl;
    [exact Hstep|apply IH].
Qed.

Lemma card_row_list (l : list pyval) :
  exists e, card_row isprintable (PList l) = inl e
            /\ (e = TypeError \/ e = IndexError).
Proof.
  unfold card_row, card_text. simpl py_iter. cbn [bind ret].
  pose proof (card_text_list l l PREFIX) as Htext.
  destruct (for_each (card_step isprintable (PList l)) l PREFIX) as [e|t].
  - exists e. split; [reflexivity|exact Htext].
  - exists TypeError. split; [reflexivity|now left].
Qed.

Lemma card_row_not_array (bad : pyval) :
  valid_card bad = false -> is_array bad = false ->
  card_row isprintable bad
  = inl (match bad with PDict _ => KeyError | _ => TypeError end).
Proof.
  intros Hbad Hnot. destruct bad as [|b|z|r|s|l|d]; try discriminate;
    try (now apply card_row_scalar).
  now apply card_row_missing_key.
Qed.

End CardErrors.

(** X2.  The first element of the array that is not a valid card decides
    the exception, when it is not itself an array: an object that lacks
    [pack_name] or [code] raises [KeyError], and a string, number, boolean
    or null raises [TypeError].  The elements before it do not matter, and
    the files stay as they were. *)
Theorem first_bad_element_exception (isprintable : char -> bool)
  (json_loads : pystr -> option pyval) (fs : files) (content : pystr)
  (good rest : list pyval) (bad : pyval) :
  all_cards_json fs = Some content ->
  json_loads content = Some (PList (good ++ bad :: rest)) ->
  forallb valid_card good = true ->
  valid_card bad = false ->
  is_array bad = false ->
  read_cards_json isprintable json_loads fs
  = (inl (match bad with PDict _ => KeyError | _ => TypeError end), fs).
Proof.
  intros Hfile Hloads Hgood Hbad Hnot.
  unfold read_cards_json, load. rewrite Hfile, Hloads. cbn [bind ret].
  rewrite (build_table_first_bad isprintable good rest bad _ Hgood
             (card_row_not_array isprintable bad Hbad Hnot)).
  reflexivity.
Qed.

(** X3.  When the first element that is not a valid card is itself an
    array, the run stops with [TypeError] or [IndexError] and nothing
    else, and the files stay as they were. *)
Theorem array_element_exception (isprintable : char -> bool)
  (json_loads : pystr -> option pyval) (fs : files) (content : pystr)
  (good rest l : list pyval) :
  all_cards_json fs = Some content ->
  json_loads content = Some (PList (good ++ PList l :: rest)) ->
  forallb valid_card good = true ->
  exists e,
    read_cards_json isprintable json_loads fs = (inl e, fs)
    /\ (e = TypeError \/ e = IndexError).
Proof.
  intros Hfile Hloads Hgood.
  destruct (card_row_list isprintable l) as (e & He & Hkind).
  exists e. split; [|exact Hkind].
  unfold read_cards_json, load. rewrite Hfile, Hloads. cbn [bind ret].
  now rewrite (build_table_first_bad isprintable good rest (PList l) e Hgood He).
Qed.

(** X4.  A document whose top-level value is not an array and is not
    accepted stops the run before any row is made: a non-empty object
    raises [KeyError] (its keys are not numbers), any other value
    [TypeError]. *)
Theorem toplevel_not_array_exception (isprintable : char -> bool)
  (json_loads : pystr -> option pyval) (fs : files) (content : pystr)
  (card_data : pyval) :
  all_cards_json fs = Some content ->
  json_loads content = Some card_data ->
  is_array card_data = false ->
  accepted_document card_data = false ->
  read_cards_json isprintable json_loads fs
  = (inl (match card_data with PDict _ => KeyError | _ => TypeError end), fs).
Proof.
  intros Hfile Hloads Hnot Hbad.
  unfold read_cards_json, load. rewrite Hfile, Hloads. cbn [bind ret].
  destruct card_data as [|b|z|r|s|l|d]; try discriminate; try reflexivity.
  - destruct s as [|c s]; [discriminate|].
    unfold build_table, tqdm. simpl py_len. cbn [bind ret]. simpl seq.
    cbn [for_each]. unfold loop_body at 1.
    replace (getitem (PStr (c :: s)) (PInt (Z.of_nat 0))) with
      (@inr exn pyval (PStr [c])) by reflexivity.
    cbn [bind].
    now rewrite (card_row_scalar isprintable (PStr [c]) eq_refl).
  - destruct d as [|kv d]; [discriminate|reflexivity].
Qed.

Lemma first_bad_element_exception_witness :
  valid_card missing_pack_name = false
  /\ read_cards_json latin1_printable more_loads
       (files_with (PList ([roland_banks] ++ missing_pack_name :: [marked_up_card])))
     = (inl KeyError,
        files_with (PList ([roland_banks] ++ missing_pack_name :: [marked_up_card]))).
Proof.
  split; [reflexivity|].
  apply (first_bad_element_exception latin1_printable more_loads
           (files_with (PList ([roland_banks] ++ missing_pack_name :: [marked_up_card])))
           (json_text (PList ([roland_banks] ++ missing_pack_name :: [marked_up_card])))
           [roland_banks] [marked_up_card] missing_pack_name);
    reflexivity.
Defined.

Lemma array_element_exception_witness :
  exists e,
    read_cards_json latin1_printable more_loads
      (files_with (PList ([roland_banks] ++ PList [PInt 5] :: [])))
    = (inl e, files_with (PList ([roland_banks] ++ PList [PInt 5] :: [])))
    /\ (e = TypeError \/ e = IndexError).
Proof.
  apply (array_element_exception latin1_printable more_loads
           (files_with (PList ([roland_banks] ++ PList [PInt 5] :: [])))
           (json_text (PList ([roland_banks] ++ PList [PInt 5] :: [])))
           [roland_banks] [] [PInt 5]);
    reflexivity.
Defined.

(** Both exceptions occur: an element [[5]] is subscripted out of range,
    an element [[0]] fails at the concatenation of a string and a number. *)
Example array_element_index_error :
  build_table latin1_printable (PList [roland_banks; PList [PInt 5]])
  = inl IndexError
  /\ build_table latin1_printable (PList [roland_banks; PList [PInt 0]])
     = inl TypeError.
Proof. split; reflexivity. Qed.

Lemma toplevel_not_array_exception_witness :
  read_cards_json latin1_printable more_loads
    (files_with (PDict [(u "cards", PList [roland_banks])]))
  = (inl KeyError, files_with (PDict [(u "cards", PList [roland_banks])])).
Proof.
  apply (toplevel_not_array_exception latin1_printable more_loads
           (files_with (PDict [(u "cards", PList [roland_banks])]))
           (json_text (PDict [(u "cards", PList [roland_banks])]))
           (PDict [(u "cards", PList [roland_banks])]));
    reflexivity.
Defined.

(** ** What a successful run leaves behind *)

Section Success.

Variable isprintable : char -> bool.

Lemma map_fst_combine {A B : Type} (xs : list A) (ys : list B) :
  List.length xs = List.length ys -> map fst (combine xs ys) = xs.
Proof.
  revert ys. induction xs as [|x xs IH]; intros [|y ys]; simpl; intros H;
    try discriminate; [reflexivity|].
  f_equal. apply IH. lia.
Qed.

(** The frame of a successful loop, with its rows spelled out. *)
Lemma build_table_inv (card_data : pyval) (df : DataFrame) :
  build_table isprintable card_data = inr df ->
  exists cellss,
    Forall2 (fun card cells => card_row isprintable card = inr cells)
      (elements card_data) cellss
    /\ df = mkDataFrame HEADER
              (combine (range_labels (List.length cellss)) cellss).
Proof.
  intros H.
  destruct (build_table_accepted isprintable card_data
              (build_table_accepts_only isprintable card_data df H))
    as (cellss & Hrows & Hbuild).
  exists cellss. split; [exact Hrows|].
  rewrite Hbuild in H. injection H as <-.
  now rewrite (Forall2_length Hrows).
Qed.

End Success.

(** X7.  The frame the loop builds is indexed [0, 1, ..., n-1] in this
    order, under the four-column header: [df.loc[len(df)]] always meets a
    label the index does not hold, so no round overwrites the row of an
    earlier one. *)
Theorem frame_index_is_range (isprintable : char -> bool)
  (card_data : pyval) (df : DataFrame) :
  build_table isprintable card_data = inr df ->
  columns df = HEADER
  /\ map fst (rows df) = range_labels (df_len df)
  /\ df_len df = List.length (elements card_data).
Proof.
  intros H. apply build_table_inv in H as (cellss & Hrows & ->).
  assert (Hlen : List.length (range_labels (List.length cellss))
                 = List.length cellss)
    by (unfold range_labels; now rewrite length_map, length_seq).
  unfold df_len. cbn [columns rows].
  rewrite length_combine, Hlen, Nat.min_id, map_fst_combine by exact Hlen.
  split; [reflexivity|]. split; [reflexivity|].
  symmetry. exact (Forall2_length Hrows).
Qed.

Lemma frame_index_is_range_witness :
  exists df,
    build_table latin1_printable (PList two_cards) = inr df
    /\ columns df = HEADER
    /\ map fst (rows df) = range_labels (df_len df)
    /\ df_len df = List.length (elements (PList two_cards)).
Proof.
  eexists. split; [reflexivity|].
  apply (frame_index_is_range latin1_printable (PList two_cards)).
  reflexivity.
Defined.

(** ** The text of a record, key by key *)

Lemma dict_get_In (d : list (pystr * pyval)) (k : pystr) (v : pyval) :
  dict_get d k = Some v -> In (k, v) d.
Proof.
  induction d as [|[k' x] d IH]; simpl; [discriminate|].
  destruct (pystr_eqb k' k) eqn:E.
  - apply pystr_eqb_eq in E. intros H. injection H as ->. subst. now left.
  - intros H. right. now apply IH.
Qed.

Lemma dict_get_app (d d' : list (pystr * pyval)) (k : pystr) :
  dict_get (d ++ d') k
  = match dict_get d k with
    | Some x => Some x
    | None => dict_get d' k
    end.
Proof.
  induction d as [|[k' x] d IH]; simpl; [reflexivity|].
  destruct (pystr_eqb k' k); [reflexivity|exact IH].
Qed.

Lemma dict_get_not_key (d : list (pystr * pyval)) (k : pystr) :
  ~ In k (map fst d) -> dict_get d k = None.
Proof.
  intros H. destruct (dict_get d k) as [v|] eqn:E; [|reflexivity].
  exfalso. apply H. apply dict_get_In in E.
  change k with (fst (k, v)). now apply in_map.
Qed.

Section Keys.

Variable isprintable : char -> bool.

(** The fragment of a key that is kept stands in the text. *)
Lemma fragment_in_text (d : list (pystr * pyval)) (k : pystr) (v : pyval) :
  NoDup (map fst d) -> In (k, v) d -> excluded k = false ->
  exists text,
    card_text isprintable (PDict d) = inr text
    /\ contains (fragment isprintable k v) text = true.
Proof.
  intros ND Hin Hk. rewrite (card_text_fragments isprintable d ND).
  eexists. split; [reflexivity|].
  apply in_split in Hin as (d1 & d2 & ->).
  rewrite flat_map_app. cbn [flat_map fst snd]. rewrite Hk.
  apply contains_app.
  exists (PREFIX ++ flat_map (fun kv => if excluded (fst kv) then []
                                        else fragment isprintable (fst kv) (snd kv)) d1),
         (flat_map (fun kv => if excluded (fst kv) then []
                              else fragment isprintable (fst kv) (snd kv)) d2).
  now rewrite <- !app_assoc.
Qed.

End Keys.

(** X9.  No key that is kept is dropped: for every key of a record outside
    the exclusion list, the text of the record holds the fragment
    [, key : value] made of the key and of its cleaned value. *)
Theorem kept_key_in_text (isprintable : char -> bool)
  (d : list (pystr * pyval)) (k : pystr) (v : pyval) :
  NoDup (map fst d) ->
  In (k, v) d ->
  in_list (PStr k) EXCLUDED = false ->
  exists text,
    card_text isprintable (PDict d) = inr text
    /\ contains (u ", " ++ k ++ u " : " ++ clean (py_str isprintable v)) text
       = true.
Proof.
  intros ND Hin Hk. exact (fragment_in_text isprintable d k v ND Hin Hk).
Qed.

Lemma kept_key_in_text_witness :
  exists text,
    card_text latin1_printable (PDict elder_sign) = inr text
    /\ contains (u ", " ++ u "name" ++ u " : "
                 ++ clean (py_str latin1_printable (PStr (u " <b>Elder Sign</b>"))))
         text
       = true.
Proof.
  apply (kept_key_in_text latin1_printable elder_sign (u "name")
           (PStr (u " <b>Elder Sign</b>"))).
  - distinct_keys.
  - cbv. tauto.
  - reflexivity.
Defined.

(** X10.  [pack_name] and [code] are not in the exclusion list: besides
    filling the [expansion] and [id] cells, both values enter the text of
    the row, cleaned, under their own keys. *)
Theorem pack_name_and_code_in_text (isprintable : char -> bool)
  (d : list (pystr * pyval)) (pack_name code : pyval) :
  NoDup (map fst d) ->
  dict_get d (u "pack_name") = Some pack_name ->
  dict_get d (u "code") = Some code ->
  exists text,
    card_row isprintable (PDict d)
    = inr [PStr (u "Arkham Horror"); pack_name; code; PStr text]
    /\ contains (u ", pack_name : " ++ clean (py_str isprintable pack_name)) text
       = true
    /\ contains (u ", code : " ++ clean (py_str isprintable code)) text = true.
Proof.
  intros ND Hpack Hcode.
  destruct (fragment_in_text isprintable d (u "pack_name") pack_name ND
              (dict_get_In d _ _ Hpack) eq_refl) as (text & Htext & Hp).
  destruct (fragment_in_text isprintable d (u "code") code ND
              (dict_get_In d _ _ Hcode) eq_refl) as (text' & Htext' & Hc).
  rewrite Htext in Htext'. injection Htext' as <-.
  exists text. split; [|split; assumption].
  unfold card_row. rewrite Htext. simpl. now rewrite Hpack, Hcode.
Qed.

Lemma pack_name_and_code_in_text_witness :
  exists text,
    card_row latin1_printable marked_up_card
    = inr [PStr (u "Arkham Horror"); PStr (u " The <b>Dunwich</b> Legacy ");
           PStr (u " <b>01003</b> "); PStr text]
    /\ contains (u ", pack_name : The Dunwich Legacy") text = true
    /\ contains (u ", code : 01003") text = true.
Proof.
  apply (pack_name_and_code_in_text latin1_printable
           [(u "code", PStr (u " <b>01003</b> "));
            (u "pack_name", PStr (u " The <b>Dunwich</b> Legacy "));
            (u "<b>, x", PStr (u "  <b>Elder Sign</b>  "));
            (u "url", PStr (u "/card/01003"));
            (u "xp", PInt 2)]
           (PStr (u " The <b>Dunwich</b> Legacy ")) (PStr (u " <b>01003</b> ")));
    [distinct_keys | reflexivity | reflexivity].
Defined.

(** X11.  The text is built key by key: a record with one more key at its
    end has the text of the shorter record followed by the fragment of the
    new key, or the same text when the new key is excluded. *)
Theorem text_of_appended_key (isprintable : char -> bool)
  (d : list (pystr * pyval)) (k : pystr) (v : pyval) :
  ~ In k (map fst d) ->
  card_text isprintable (PDict (d ++ [(k, v)]))
  = (text <- card_text isprintable (PDict d) ;;
     ret (text ++ (if in_list (PStr k) EXCLUDED then []
                   else u ", " ++ k ++ u " : " ++ clean (py_str isprintable v)))).
Proof.
  intros Hnew. rewrite !card_text_dict. cbn [bind]. unfold ret.
  rewrite map_app, flat_map_app, app_assoc. f_equal. f_equal.
  - f_equal. apply flat_map_ext_In. intros k' Hk'. unfold fragment_of.
    rewrite dict_get_app.
    destruct (dict_get d k') eqn:E; [reflexivity|].
    now apply dict_get_In_keys in Hk'.
  - cbn [map flat_map fst]. rewrite app_nil_r. unfold fragment_of, excluded.
    rewrite dict_get_app, (dict_get_not_key d k Hnew). simpl dict_get.
    now rewrite pystr_eqb_refl.
Qed.

Lemma text_of_appended_key_witness :
  card_text latin1_printable
    (PDict ([(u "code", PStr (u "01006")); (u "url", PStr (u "/card/01006"))]
            ++ [(u "name", PStr (u "Rex <b>Murphy</b> "))]))
  = inr (u "Game Name : Arkham Horror, code : 01006, name : Rex Murphy").
Proof.
  rewrite (text_of_appended_key latin1_printable); [reflexivity|].
  cbv. intuition discriminate.
Defined.

(** ** Line 25, the cleaning of a value *)

Lemma replace_from_absent (old new s : pystr) :
  contains old s = false -> replace_from old new 0 s = s.
Proof.
  induction s as [|c s IH]; [reflexivity|].
  cbn [contains replace_from]. intros H. apply orb_false_iff in H as [Hhead Htail].
  rewrite Hhead. f_equal. now apply IH.
Qed.

Lemma lstrip_head (s : pystr) (c : char) :
  hd_error (lstrip s) = Some c -> isspace c = false.
Proof.
  induction s as [|c' s IH]; [discriminate|]. cbn [lstrip].
  destruct (isspace c') eqn:E; [exact IH|].
  intros H. injection H as <-. exact E.
Qed.

Lemma hd_error_app (x y : pystr) (c : char) :
  hd_error x = Some c -> hd_error (x ++ y) = Some c.
Proof.
  destruct x; [discriminate|]. intros H. exact H.
Qed.

(** What [strip] returns neither begins nor ends with a blank. *)
Lemma strip_trimmed (s : pystr) (c : char) :
  hd_error (strip s) = Some c \/ hd_error (rev (strip s)) = Some c ->
  isspace c = false.
Proof.
  unfold strip, rstrip. intros [H|H].
  - destruct (lstrip_suffix (rev (lstrip s))) as [a Ha].
    apply (lstrip_head s c).
    rewrite <- (rev_involutive (lstrip s)), Ha, rev_app_distr.
    now apply hd_error_app.
  - rewrite rev_involutive in H. now apply lstrip_head in H.
Qed.

(** X12.  A value whose string holds neither [<b>] nor [</b>] is only
    trimmed: the two replacements leave it as it is. *)
Theorem clean_without_tags_is_strip (s : pystr) :
  has_tag s = false -> clean s = strip s.
Proof.
  unfold has_tag, clean. intros H. apply orb_false_iff in H as [HB HE].
  unfold replace. cbn [u map list_ascii_of_string].
  change (map N_of_ascii (list_ascii_of_string "<b>")) with (u "<b>") in *.
  f_equal.
  change (replace_from (u "</b>") [] 0 (replace_from (u "<b>") [] 0 s) = s).
  now rewrite (replace_from_absent (u "<b>") [] s HB),
    (replace_from_absent (u "</b>") [] s HE).
Qed.

Lemma clean_without_tags_is_strip_witness :
  clean (u "  <i>Fast.</i> Draw 1 card.  ") = u "<i>Fast.</i> Draw 1 card.".
Proof.
  rewrite (clean_without_tags_is_strip (u "  <i>Fast.</i> Draw 1 card.  "));
    reflexivity.
Defined.

(** X13.  The value part of a fragment never begins or ends with a blank:
    the first and the last character of a cleaned value are not
    whitespace. *)
Theorem clean_trimmed (s : pystr) (c : char) :
  hd_error (clean s) = Some c \/ hd_error (rev (clean s)) = Some c ->
  isspace c = false.
Proof.
  unfold clean. apply strip_trimmed.
Qed.

Lemma clean_trimmed_witness :
  hd_error (clean (u " <b> Elder Sign </b> ")) = Some 69%N /\ isspace 69%N = false.
Proof.
  split; [reflexivity|].
  apply (clean_trimmed (u " <b> Elder Sign </b> ") 69%N). left. reflexivity.
Defined.

(** * The run with the storage layer as it is *)

Lemma nth_error_seq_at (start n i : nat) :
  (i < n)%nat -> nth_error (seq start n) i = Some (start + i)%nat.
Proof.
  revert start i. induction n as [|n IH]; intros start [|i] H; simpl; try lia.
  - now rewrite Nat.add_0_r.
  - rewrite IH by lia. f_equal. lia.
Qed.

Lemma nth_error_range_labels (n i : nat) :
  (i < n)%nat -> nth_error (range_labels n) i = Some (Z.of_nat i).
Proof.
  intros H. unfold range_labels.
  now rewrite nth_error_map, (nth_error_seq_at 0 n i H).
Qed.

Lemma nth_error_pair {A B : Type} (l : list (A * B)) (i : nat) (a : A) (b : B) :
  nth_error (map fst l) i = Some a -> nth_error (map snd l) i = Some b ->
  nth_error l i = Some (a, b).
Proof.
  rewrite !nth_error_map. destruct (nth_error l i) as [[a' b']|]; simpl;
    [|discriminate].
  intros Ha Hb. injection Ha as ->. injection Hb as ->. reflexivity.
Qed.

Lemma kept_refl (cells : list pyval) : Forall2 kept cells cells.
Proof.
  induction cells as [|x cells IH]; constructor; [|exact IH].
  destruct x; simpl; auto.
Qed.

(** The cells of a row that are strings are the row. *)
Lemma kept_strings (raw stored : list pyval) :
  Forall2 kept raw stored -> forallb is_str raw = true -> stored = raw.
Proof.
  induction 1 as [|x y raw stored Hxy _ IH]; [reflexivity|]. simpl.
  intros H. apply andb_true_iff in H as [Hx Hraw].
  destruct x; try discriminate. simpl in Hxy. subst y.
  f_equal. now apply IH.
Qed.

Section Frame.

Variable isprintable : char -> bool.
Variable cast : list pyval -> pyval -> pyval.

Lemma retype_labels (rs : list (Z * list pyval)) :
  map fst (retype cast rs) = map fst rs.
Proof.
  unfold retype. rewrite map_map. reflexivity.
Qed.

Lemma retype_row_kept (rs : list (Z * list pyval)) (raw cells : list pyval) :
  Forall2 kept raw cells -> Forall2 kept raw (retype_row cast rs cells).
Proof.
  unfold retype_row. intros H. generalize 0%nat.
  induction H as [|x y raw cells Hxy _ IH]; intros start; simpl;
    constructor; [|apply IH].
  destruct x; simpl in *; auto. subst y. reflexivity.
Qed.

Lemma retype_kept (rs : list (Z * list pyval)) (raws : list (list pyval)) :
  Forall2 (Forall2 kept) raws (map snd rs) ->
  Forall2 (Forall2 kept) raws (map snd (retype cast rs)).
Proof.
  unfold retype. rewrite map_map. cbn [snd]. generalize rs at 1 3.
  intros rows H. remember (map snd rows) as cellss eqn:E. revert rows E.
  induction H as [|raw cells raws cellss Hrow _ IH]; intros [|r rows] E;
    try discriminate; [constructor|].
  simpl in E. injection E as -> ->. simpl. constructor.
  - now apply retype_row_kept.
  - now apply IH.
Qed.

Lemma loc_setitem_typed_appends (cells : list pyval) (rs : list (Z * list pyval))
  (n : nat) :
  List.length cells = 4%nat ->
  map fst rs = range_labels n ->
  loc_setitem_typed cast (mkDataFrame HEADER rs)
    (Z.of_nat (df_len (mkDataFrame HEADER rs))) cells
  = inr (mkDataFrame HEADER (retype cast (rs ++ [(Z.of_nat n, cells)]))).
Proof.
  intros Hcells Hlabels.
  assert (Hlen : List.length rs = n).
  { rewrite <- (length_map fst rs), Hlabels. unfold range_labels.
    now rewrite length_map, length_seq. }
  unfold loc_setitem_typed, loc_setitem, df_len. cbn [columns rows].
  rewrite Hcells. cbn [HEADER List.length Nat.eqb bind ret columns rows].
  rewrite Hlen, set_row_fresh; [reflexivity|].
  rewrite Hlabels. apply label_fresh.
Qed.

(** The rounds over cards that all give a row: the frame keeps one row per
    card, in order, under the labels that follow, with every string cell
    as [card_row] made it. *)
Lemma loop_rows_typed (todo done more : list pyval)
  (cellss raws : list (list pyval)) (rs : list (Z * list pyval)) :
  Forall2 (fun card cells => card_row isprintable card = inr cells) todo cellss ->
  map fst rs = range_labels (List.length done) ->
  Forall2 (Forall2 kept) raws (map snd rs) ->
  exists rs',
    for_each (loop_body_typed isprintable cast (PList (done ++ todo ++ more)))
      (seq (List.length done) (List.length todo)) (mkDataFrame HEADER rs)
    = inr (mkDataFrame HEADER rs')
    /\ map fst rs' = range_labels (List.length (done ++ todo))
    /\ Forall2 (Forall2 kept) (raws ++ cellss) (map snd rs').
Proof.
  intros H. revert done raws rs.
  induction H as [|c cells todo cellss Hc _ IH]; intros done raws rs Hlabels Hkept.
  - exists rs. rewrite !app_nil_r. auto.
  - cbn [List.length seq for_each]. unfold loop_body_typed at 1.
    change (c :: todo) with ([c] ++ todo) at 1.
    cbn [app]. rewrite getitem_list_at. cbn [bind]. rewrite Hc. cbn [bind].
    rewrite (loc_setitem_typed_appends cells rs (List.length done)
               (card_row_length isprintable c cells Hc) Hlabels).
    cbn [bind].
    replace (done ++ c :: todo ++ more) with ((done ++ [c]) ++ todo ++ more)
      by now rewrite <- app_assoc.
    replace (S (List.length done)) with (List.length (done ++ [c]))
      by (rewrite length_app; simpl; lia).
    destruct (IH (done ++ [c]) (raws ++ [cells])
                (retype cast (rs ++ [(Z.of_nat (List.length done), cells)])))
      as (rs' & Hloop & Hlabels' & Hkept').
    + rewrite retype_labels, map_app, Hlabels, length_app. simpl.
      unfold range_labels. now rewrite Nat.add_1_r, seq_S, map_app.
    + apply retype_kept. rewrite map_app. simpl.
      apply Forall2_app; [exact Hkept|]. constructor; [apply kept_refl|constructor].
    + exists rs'. rewrite Hloop. split; [reflexivity|].
      rewrite <- !app_assoc in *. simpl in *. auto.
Qed.

(** The frame of an array of valid cards. *)
Lemma build_table_typed_rows (cards : list pyval) (cellss : list (list pyval)) :
  Forall2 (fun card cells => card_row isprintable card = inr cells) cards cellss ->
  exists rs,
    build_table_typed isprintable cast (PList cards) = inr (mkDataFrame HEADER rs)
    /\ map fst rs = range_labels (List.length cards)
    /\ Forall2 (Forall2 kept) cellss (map snd rs).
Proof.
  intros H.
  destruct (loop_rows_typed cards [] [] cellss [] [] H eq_refl (Forall2_nil _))
    as (rs & Hloop & Hlabels & Hkept).
  exists rs. rewrite app_nil_r in Hloop. simpl in Hloop.
  unfold build_table_typed, tqdm. simpl py_len. cbn [bind ret].
  unfold HEADER in Hloop. rewrite Hloop. auto.
Qed.

Lemma loop_bodies_agree (card_data : pyval) (i : nat) (df df' : DataFrame) :
  columns df = columns df' ->
  match loop_body isprintable card_data df i,
        loop_body_typed isprintable cast card_data df' i with
  | inl e, inl e' => e = e'
  | inr d, inr d' => columns d = columns d'
  | _, _ => False
  end.
Proof.
  intros Hcols. unfold loop_body, loop_body_typed.
  destruct (getitem card_data (PInt (Z.of_nat i))) as [e|card]; simpl;
    [reflexivity|].
  destruct (card_row isprintable card) as [e|cells]; simpl; [reflexivity|].
  unfold loc_setitem_typed, loc_setitem. rewrite <- Hcols.
  destruct (Nat.eqb (List.length cells) (List.length (columns df)));
    reflexivity.
Qed.

(** The two loops stop at the same round with the same exception: the
    types of the columns play no part in what raises before line 29. *)
Lemma loops_agree (card_data : pyval) (xs : list nat) (df df' : DataFrame) :
  columns df = columns df' ->
  match for_each (loop_body isprintable card_data) xs df,
        for_each (loop_body_typed isprintable cast card_data) xs df' with
  | inl e, inl e' => e = e'
  | inr d, inr d' => columns d = columns d'
  | _, _ => False
  end.
Proof.
  revert df df'. induction xs as [|i xs IH]; intros df df' Hcols; simpl;
    [exact Hcols|].
  pose proof (loop_bodies_agree card_data i df df' Hcols) as Hstep.
  destruct (loop_body isprintable card_data df i) as [e|d],
           (loop_body_typed isprintable cast card_data df' i) as [e'|d'];
    cbn [bind]; try contradiction; [exact Hstep|].
  now apply IH.
Qed.

Lemma build_tables_agree (card_data : pyval) :
  match build_table isprintable card_data,
        build_table_typed isprintable cast card_data with
  | inl e, inl e' => e = e'
  | inr d, inr d' => columns d = columns d'
  | _, _ => False
  end.
Proof.
  unfold build_table, build_table_typed.
  destruct (py_len card_data) as [e|n]; simpl; [reflexivity|].
  now apply loops_agree.
Qed.

End Frame.

Lemma rows_of_parts {A B : Type} (l : list (A * B)) :
  l = combine (map fst l) (map snd l).
Proof.
  induction l as [|[a b] l IH]; simpl; [reflexivity|]. now rewrite <- IH.
Qed.

Section TypedRun.

Variable isprintable : char -> bool.
Variable cast : list pyval -> pyval -> pyval.
Variable refuses : DataFrame -> bool.
Variable json_loads : pystr -> option pyval.

(** Row [i] of the frame of valid cards: the label [i], the constant, the
    stored [pack_name] and [code], and the text of card [i] as it is. *)
Lemma frame_row_at (cards : list pyval) (cellss : list (list pyval))
  (rs : list (Z * list pyval)) (i : nat) (card : pyval) :
  Forall2 (fun card cells => card_row isprintable card = inr cells) cards cellss ->
  map fst rs = range_labels (List.length cards) ->
  Forall2 (Forall2 kept) cellss (map snd rs) ->
  nth_error cards i = Some card ->
  exists pack_name code text expansion id,
    card_row isprintable card
    = inr [PStr (u "Arkham Horror"); pack_name; code; PStr text]
    /\ nth_error rs i
       = Some (Z.of_nat i, [PStr (u "Arkham Horror"); expansion; id; PStr text])
    /\ kept pack_name expansion
    /\ kept code id.
Proof.
  intros Hrows Hlabels Hkept Hi.
  destruct (Forall2_nth_error i Hrows Hi) as (raw & Hraw & Hrow).
  destruct (Forall2_nth_error i Hkept Hraw) as (stored & Hstored & Hcells).
  assert (Hlt : (i < List.length cards)%nat)
    by (apply nth_error_Some; congruence).
  pose proof (nth_error_range_labels (List.length cards) i Hlt) as Hlabel.
  rewrite <- Hlabels in Hlabel.
  pose proof (nth_error_pair rs i _ _ Hlabel Hstored) as Hnth.
  destruct (card_row_inv isprintable card raw Hrow)
    as (text & p & c & _ & _ & _ & ->).
  unfold row_cells in Hcells.
  inversion Hcells as [|? x1 ? l1 H1 Hc1]; subst.
  inversion Hc1 as [|? x2 ? l2 H2 Hc2]; subst.
  inversion Hc2 as [|? x3 ? l3 H3 Hc3]; subst.
  inversion Hc3 as [|? x4 ? l4 H4 Hc4]; subst.
  inversion Hc4; subst. simpl in H1, H4. subst x1 x4.
  exists p, c, text, x2, x3. auto.
Qed.

Lemma typed_run_outcome (fs : files) (content : pystr) (card_data : pyval)
  (df : DataFrame) :
  all_cards_json fs = Some content ->
  json_loads content = Some card_data ->
  build_table_typed isprintable cast card_data = inr df ->
  read_cards_json_typed isprintable cast refuses json_loads fs = WriteFailed
  \/ read_cards_json_typed isprintable cast refuses json_loads fs
     = Written (mkParquet (columns df) (map snd (rows df))).
Proof.
  intros Hfile Hloads Hbuild. unfold read_cards_json_typed, load.
  rewrite Hfile, Hloads. cbn [bind ret]. rewrite Hbuild.
  destruct (refuses df); [now left|right; reflexivity].
Qed.

Lemma card_row_text_card (card : pyval) :
  text_card card = true ->
  exists cells, card_row isprintable card = inr cells
                /\ forallb is_str cells = true.
Proof.
  destruct card as [| | | | |l|d]; simpl; try discriminate.
  intros H. unfold card_row. rewrite card_text_dict. simpl.
  destruct (dict_get d (u "pack_name")) as [[| | | |p| |]|]; try discriminate.
  destruct (dict_get d (u "code")) as [[| | | |c| |]|]; try discriminate.
  simpl. eexists. split; reflexivity.
Qed.

Lemma card_rows_text (cards : list pyval) :
  forallb text_card cards = true ->
  exists cellss,
    Forall2 (fun card cells => card_row isprintable card = inr cells) cards cellss
    /\ Forall (fun cells => forallb is_str cells = true) cellss.
Proof.
  induction cards as [|c cards IH]; simpl; intros H.
  - exists []. split; constructor.
  - apply andb_true_iff in H as [Hc Hcs].
    destruct (card_row_text_card c Hc) as (cells & Hcells & Hstr).
    destruct (IH Hcs) as (cellss & Hrows & Hall).
    exists (cells :: cellss). split; constructor; assumption.
Qed.

Lemma kept_text_rows (cellss stored : list (list pyval)) :
  Forall2 (Forall2 kept) cellss stored ->
  Forall (fun cells => forallb is_str cells = true) cellss ->
  stored = cellss.
Proof.
  induction 1 as [|raw cells cellss stored Hrow _ IH]; [reflexivity|].
  intros Hall. inversion Hall as [|? ? Hraw Hrest]; subst.
  f_equal; [now apply kept_strings|now apply IH].
Qed.

(** On cards whose [pack_name] and [code] are strings the frame holds the
    cells as [card_row] made them. *)
Lemma build_table_typed_text (cards : list pyval) :
  forallb text_card cards = true ->
  exists cellss,
    Forall2 (fun card cells => card_row isprintable card = inr cells) cards cellss
    /\ build_table_typed isprintable cast (PList cards)
       = inr (mkDataFrame HEADER
                (combine (range_labels (List.length cards)) cellss)).
Proof.
  intros H. destruct (card_rows_text cards H) as (cellss & Hrows & Hall).
  exists cellss. split; [exact Hrows|].
  destruct (build_table_typed_rows isprintable cast cards cellss Hrows)
    as (rs & Hbuild & Hlabels & Hkept).
  rewrite Hbuild. do 2 f_equal.
  rewrite (rows_of_parts rs), Hlabels.
  now rewrite (kept_text_rows cellss (map snd rs) Hkept Hall).
Qed.

End TypedRun.

(** C1.  For every array of objects that all have [pack_name] and [code]
    the loop completes, and the frame it builds has exactly one row per
    element, in the order of the array: row [i] carries the label [i], the
    constant, the [pack_name] and [code] of element [i] as the frame
    stores them (a string as it is) and the text of element [i].  Line 29
    either raises or writes exactly these rows, in this order, under the
    four-column header. *)
Theorem rows_follow_input (isprintable : char -> bool)
  (cast : list pyval -> pyval -> pyval) (refuses : DataFrame -> bool)
  (json_loads : pystr -> option pyval) (fs : files) (content : pystr)
  (cards : list pyval) :
  all_cards_json fs = Some content ->
  json_loads content = Some (PList cards) ->
  forallb valid_card cards = true ->
  exists frame_rows,
    build_table_typed isprintable cast (PList cards)
    = inr (mkDataFrame HEADER frame_rows)
    /\ List.length frame_rows = List.length cards
    /\ (forall i card,
          nth_error cards i = Some card ->
          exists pack_name code text expansion id,
            card_row isprintable card
            = inr [PStr (u "Arkham Horror"); pack_name; code; PStr text]
            /\ nth_error frame_rows i
               = Some (Z.of_nat i,
                       [PStr (u "Arkham Horror"); expansion; id; PStr text])
            /\ kept pack_name expansion
            /\ kept code id)
    /\ (read_cards_json_typed isprintable cast refuses json_loads fs = WriteFailed
        \/ read_cards_json_typed isprintable cast refuses json_loads fs
           = Written (mkParquet HEADER (map snd frame_rows))).
Proof.
  intros Hfile Hloads Hvalid.
  destruct (card_rows_valid isprintable cards Hvalid) as [cellss Hrows].
  destruct (build_table_typed_rows isprintable cast cards cellss Hrows)
    as (rs & Hbuild & Hlabels & Hkept).
  exists rs. split; [exact Hbuild|]. split.
  - rewrite <- (length_map fst rs), Hlabels. unfold range_labels.
    now rewrite length_map, length_seq.
  - split.
    + intros i card Hi.
      exact (frame_row_at isprintable cards cellss rs i card Hrows Hlabels Hkept Hi).
    + exact (typed_run_outcome isprintable cast refuses json_loads fs content
               (PList cards) _ Hfile Hloads Hbuild).
Qed.

Lemma rows_follow_input_witness :
  forallb valid_card two_cards = true
  /\ exists frame_rows,
       build_table_typed latin1_printable sample_cast (PList two_cards)
       = inr (mkDataFrame HEADER frame_rows)
       /\ List.length frame_rows = List.length two_cards
       /\ (forall i card,
             nth_error two_cards i = Some card ->
             exists pack_name code text expansion id,
               card_row latin1_printable card
               = inr [PStr (u "Arkham Horror"); pack_name; code; PStr text]
               /\ nth_error frame_rows i
                  = Some (Z.of_nat i,
                          [PStr (u "Arkham Horror"); expansion; id; PStr text])
               /\ kept pack_name expansion
               /\ kept code id)
       /\ (read_cards_json_typed latin1_printable sample_cast sample_refuses
             sample_loads two_cards_files = WriteFailed
           \/ read_cards_json_typed latin1_printable sample_cast sample_refuses
                sample_loads two_cards_files
              = Written (mkParquet HEADER (map snd frame_rows))).
Proof.
  split; [reflexivity|].
  apply (rows_follow_input latin1_printable sample_cast sample_refuses
           sample_loads two_cards_files (json_text (PList two_cards)) two_cards);
    reflexivity.
Defined.

(** Under the sample rules: the int of a column that then receives a
    float is stored as a float, and a frame with a column of a string and
    a number is refused by the engine, so that no table is written. *)
Example int_cell_stored_as_float :
  build_table_typed latin1_printable sample_cast (PList [int_pack; float_pack])
  = inr (mkDataFrame HEADER
           [(0%Z, [PStr (u "Arkham Horror"); PFloat (u "1.0"); PStr (u "01008");
                   PStr (u "Game Name : Arkham Horror, pack_name : 1, code : 01008")]);
            (1%Z, [PStr (u "Arkham Horror"); PFloat (u "0.5"); PStr (u "01009");
                   PStr (u "Game Name : Arkham Horror, pack_name : 0.5, code : 01009")])]).
Proof. reflexivity. Qed.

Example mixed_column_not_written :
  forallb valid_card [roland_banks; numbered_pack] = true
  /\ read_cards_json_typed latin1_printable sample_cast sample_refuses
       (decoder_of [PList [roland_banks; numbered_pack]])
       (files_with (PList [roland_banks; numbered_pack]))
     = WriteFailed.
Proof. split; reflexivity. Qed.

(** C4, as the code has it.  In the row of a record whose [pack_name] and
    [code] are strings, the [expansion] and [id] cells are exactly these
    strings, with their markup and blanks, in the frame and in the table
    line 29 writes if it does not raise; only the text cell holds the
    cleaned values. *)
Theorem columns_copied_verbatim (isprintable : char -> bool)
  (cast : list pyval -> pyval -> pyval) (refuses : DataFrame -> bool)
  (json_loads : pystr -> option pyval) (fs : files) (content : pystr)
  (cards : list pyval) (i : nat) (d : list (pystr * pyval))
  (pack_name code : pystr) :
  all_cards_json fs = Some content ->
  json_loads content = Some (PList cards) ->
  forallb valid_card cards = true ->
  nth_error cards i = Some (PDict d) ->
  dict_get d (u "pack_name") = Some (PStr pack_name) ->
  dict_get d (u "code") = Some (PStr code) ->
  exists frame_rows text,
    build_table_typed isprintable cast (PList cards)
    = inr (mkDataFrame HEADER frame_rows)
    /\ card_text isprintable (PDict d) = inr text
    /\ nth_error frame_rows i
       = Some (Z.of_nat i,
               [PStr (u "Arkham Horror"); PStr pack_name; PStr code; PStr text])
    /\ (read_cards_json_typed isprintable cast refuses json_loads fs = WriteFailed
        \/ read_cards_json_typed isprintable cast refuses json_loads fs
           = Written (mkParquet HEADER (map snd frame_rows))).
Proof.
  intros Hfile Hloads Hvalid Hi Hpack Hcode.
  destruct (card_rows_valid isprintable cards Hvalid) as [cellss Hrows].
  destruct (build_table_typed_rows isprintable cast cards cellss Hrows)
    as (rs & Hbuild & Hlabels & Hkept).
  destruct (frame_row_at isprintable cards cellss rs i (PDict d)
              Hrows Hlabels Hkept Hi)
    as (p & c & text & e & x & Hrow & Hnth & Hp & Hc).
  apply card_row_inv in Hrow as (text' & p' & c' & Htext & Hp' & Hc' & Hcells).
  simpl in Hp', Hc'. rewrite Hpack in Hp'. rewrite Hcode in Hc'.
  injection Hp' as <-. injection Hc' as <-.
  unfold row_cells in Hcells. injection Hcells as -> -> ->.
  simpl in Hp, Hc. subst e x.
  exists rs, text'. repeat (split; [assumption|]).
  exact (typed_run_outcome isprintable cast refuses json_loads fs content
           (PList cards) _ Hfile Hloads Hbuild).
Qed.

Lemma columns_copied_verbatim_witness :
  exists frame_rows text,
    build_table_typed latin1_printable sample_cast (PList two_cards)
    = inr (mkDataFrame HEADER frame_rows)
    /\ card_text latin1_printable marked_up_card = inr text
    /\ nth_error frame_rows 1
       = Some (1%Z,
               [PStr (u "Arkham Horror"); PStr (u " The <b>Dunwich</b> Legacy ");
                PStr (u " <b>01003</b> "); PStr text])
    /\ (read_cards_json_typed latin1_printable sample_cast sample_refuses
          sample_loads two_cards_files = WriteFailed
        \/ read_cards_json_typed latin1_printable sample_cast sample_refuses
             sample_loads two_cards_files
           = Written (mkParquet HEADER (map snd frame_rows))).
Proof.
  apply (columns_copied_verbatim latin1_printable sample_cast sample_refuses
           sample_loads two_cards_files (json_text (PList two_cards)) two_cards 1
           [(u "code", PStr (u " <b>01003</b> "));
            (u "pack_name", PStr (u " The <b>Dunwich</b> Legacy "));
            (u "<b>, x", PStr (u "  <b>Elder Sign</b>  "));
            (u "url", PStr (u "/card/01003"));
            (u "xp", PInt 2)]
           (u " The <b>Dunwich</b> Legacy ") (u " <b>01003</b> "));
    reflexivity.
Defined.

(** C4, as stated, fails: the record is valid and its [pack_name] is the
    number 5; the cell the script hands to the table for [expansion] is
    that number and not its string, which only the text holds. *)
Lemma number_cell_is_not_its_string :
  valid_card numbered_pack = true
  /\ getitem numbered_pack (PStr (u "pack_name")) = inr (PInt 5)
  /\ card_row latin1_printable numbered_pack
     = inr [PStr (u "Arkham Horror"); PInt 5; PStr (u "01007");
            PStr (u "Game Name : Arkham Horror, code : 01007, pack_name : 5")]
  /\ PInt 5 <> PStr (py_str latin1_printable (PInt 5)).
Proof.
  repeat split; try reflexivity. discriminate.
Qed.

(** X1.  The run gets as far as the write of line 29 exactly when the
    input file is there, its text is JSON, and the document is accepted:
    an array whose elements are all objects with the keys [pack_name] and
    [code], or an empty object or empty string.  Whether the write then
    raises is the engine's matter. *)
Theorem run_reaches_write_iff_accepted (isprintable : char -> bool)
  (cast : list pyval -> pyval -> pyval) (refuses : DataFrame -> bool)
  (json_loads : pystr -> option pyval) (fs : files) :
  reached_write (read_cards_json_typed isprintable cast refuses json_loads fs)
  = true
  <-> exists content card_data,
        all_cards_json fs = Some content
        /\ json_loads content = Some card_data
        /\ accepted_document card_data = true.
Proof.
  unfold read_cards_json_typed, load. split.
  - destruct (all_cards_json fs) as [content|]; [|discriminate].
    destruct (json_loads content) as [card_data|] eqn:Hloads; [|discriminate].
    cbn [bind ret].
    pose proof (build_tables_agree isprintable cast card_data) as Hagree.
    destruct (build_table_typed isprintable cast card_data) as [e|df];
      [discriminate|].
    intros _. exists content, card_data.
    split; [reflexivity|]. split; [exact Hloads|].
    destruct (build_table isprintable card_data) as [e|df0] eqn:E;
      [contradiction|].
    exact (build_table_accepts_only isprintable card_data df0 E).
  - intros (content & card_data & -> & -> & Hok). cbn [bind ret].
    pose proof (build_tables_agree isprintable cast card_data) as Hagree.
    destruct (build_table_accepted isprintable card_data Hok) as (cellss & _ & E).
    rewrite E in Hagree.
    destruct (build_table_typed isprintable cast card_data) as [e|df];
      [contradiction|].
    destruct (refuses df); reflexivity.
Qed.



(** X8.  For two arrays of objects whose [pack_name] and [code] are
    strings, the rows of the frame of the two arrays put end to end are
    the rows of the frame of the first followed by those of the second:
    with string cells a row depends on its own card only. *)
Theorem text_tables_concatenate (isprintable : char -> bool)
  (cast : list pyval -> pyval -> pyval) (cards1 cards2 : list pyval) :
  forallb text_card cards1 = true ->
  forallb text_card cards2 = true ->
  exists df1 df2 df,
    build_table_typed isprintable cast (PList cards1) = inr df1
    /\ build_table_typed isprintable cast (PList cards2) = inr df2
    /\ build_table_typed isprintable cast (PList (cards1 ++ cards2)) = inr df
    /\ pq_rows (to_parquet df)
       = pq_rows (to_parquet df1) ++ pq_rows (to_parquet df2).
Proof.
  intros H1 H2.
  assert (H : forallb text_card (cards1 ++ cards2) = true)
    by (rewrite forallb_app, H1, H2; reflexivity).
  destruct (build_table_typed_text isprintable cast cards1 H1)
    as (rows1 & Hrows1 & E1).
  destruct (build_table_typed_text isprintable cast cards2 H2)
    as (rows2 & Hrows2 & E2).
  destruct (build_table_typed_text isprintable cast _ H) as (rows12 & Hrows & E).
  assert (Hsame : rows12 = rows1 ++ rows2).
  { pose proof (Forall2_app Hrows1 Hrows2) as Happ.
    clear -Hrows Happ. revert Happ. generalize (rows1 ++ rows2).
    induction Hrows as [|c x cards xs Hx _ IH]; intros ys Hys;
      inversion Hys as [|? y ? ys' Hy Hys']; subst; [reflexivity|].
    f_equal; [congruence|now apply IH]. }
  subst rows12. do 3 eexists.
  split; [exact E1|]. split; [exact E2|]. split; [exact E|].
  unfold to_parquet. cbn [pq_rows rows].
  assert (Hsnd : forall n (cs : list pyval) (xs : list (list pyval)),
            Forall2 (fun card cells => card_row isprintable card = inr cells) cs xs ->
            n = List.length cs ->
            map snd (combine (range_labels n) xs) = xs).
  { intros n cs xs Hcx ->. rewrite (Forall2_length Hcx). clear.
    unfold range_labels. generalize 0%nat.
    induction xs as [|x xs IH]; intros start; simpl; [reflexivity|].
    f_equal. apply IH. }
  rewrite (Hsnd _ _ _ Hrows eq_refl), (Hsnd _ _ _ Hrows1 eq_refl),
    (Hsnd _ _ _ Hrows2 eq_refl).
  reflexivity.
Qed.

Lemma text_tables_concatenate_witness :
  exists df1 df2 df,
    build_table_typed latin1_printable sample_cast (PList [roland_banks]) = inr df1
    /\ build_table_typed latin1_printable sample_cast
         (PList [marked_up_card; roland_banks]) = inr df2
    /\ build_table_typed latin1_printable sample_cast
         (PList ([roland_banks] ++ [marked_up_card; roland_banks])) = inr df
    /\ pq_rows (to_parquet df)
       = pq_rows (to_parquet df1) ++ pq_rows (to_parquet df2).
Proof.
  apply (text_tables_concatenate latin1_printable sample_cast
           [roland_banks] [marked_up_card; roland_banks]); reflexivity.
Defined.
